(** * Connectors: event bus and state store

  A shallow embedding of [kimi_agent_sdk/connectors/events.py] and
  [kimi_agent_sdk/connectors/state.py], and the properties of the pattern
  matcher, the dispatch loop, the history buffer and the versioned file
  store. *)

From Stdlib Require Import ZArith Ascii String List Lia SpecFloat.
From stdpp Require Import gmap strings list fin_maps.

Local Open Scope string_scope.
Local Open Scope list_scope.

(** ** Python built-ins the two modules rely on *)

Module Py.

(** [s.split(sep)] for a one-character separator: never returns the empty
    list, [''.split('.')] is [['']]. *)
Fixpoint split (sep : ascii) (s : string) : list string :=
  match s with
  | EmptyString => [EmptyString]
  | String c rest =>
      if Ascii.eqb c sep then EmptyString :: split sep rest
      else match split sep rest with
           | seg :: segs => String c seg :: segs
           | [] => [String c EmptyString]
           end
  end.

(** [sep.join(parts)] for a one-character separator. *)
Fixpoint join (sep : ascii) (parts : list string) : string :=
  match parts with
  | [] => EmptyString
  | [part] => part
  | part :: rest => (part ++ String sep (join sep rest))%string
  end.

(** [s.replace(old, new)] for one-character [old] and [new]. *)
Fixpoint replace (old new : ascii) (s : string) : string :=
  match s with
  | EmptyString => EmptyString
  | String c rest =>
      String (if Ascii.eqb c old then new else c) (replace old new rest)
  end.

(** [s.startswith(prefix)]. *)
Fixpoint startswith (s prefix : string) : bool :=
  match prefix, s with
  | EmptyString, _ => true
  | String p prefix', String c s' => Ascii.eqb c p && startswith s' prefix'
  | String _ _, EmptyString => false
  end.

(** [s.rfind(ch)] for a one-character needle; [None] stands for [-1]. *)
Fixpoint rfind (ch : ascii) (s : string) : option nat :=
  match s with
  | EmptyString => None
  | String c rest =>
      match rfind ch rest with
      | Some i => Some (S i)
      | None => if Ascii.eqb c ch then Some 0 else None
      end
  end.

(** [ch in s] for a one-character [ch]. *)
Fixpoint contains (ch : ascii) (s : string) : bool :=
  match s with
  | EmptyString => false
  | String c rest => Ascii.eqb c ch || contains ch rest
  end.

(** [s.endswith(suffix)]: some tail of [s] is [suffix]. *)
Fixpoint endswith (s suffix : string) : bool :=
  (s =? suffix) ||
  match s with
  | EmptyString => false
  | String _ s' => endswith s' suffix
  end.

(** [s[:i]]. *)
Fixpoint take_chars (i : nat) (s : string) : string :=
  match i, s with
  | S i', String c s' => String c (take_chars i' s')
  | _, _ => EmptyString
  end.

(** [l[start:]] for a Python list: a negative [start] counts from the end
    and is clamped at the front. *)
Definition slice_from {A : Type} (start : Z) (l : list A) : list A :=
  if (start <? 0)%Z
  then drop (Z.to_nat (Z.max 0 (Z.of_nat (length l) + start))) l
  else drop (Z.to_nat start) l.

(** JSON-serializable values, the payloads both modules carry. A Python
    [float] is a binary64 number. *)
#[local] Set Warnings "-register-all".
Inductive json : Type :=
| JNull
| JBool (b : bool)
| JInt (n : Z)
| JFloat (x : spec_float)
| JStr (s : string)
| JList (items : list json)
| JDict (members : list (string * json)).

(** What a call does: it returns a value or raises. *)
Inductive result (E A : Type) : Type :=
| Return (a : A)
| Raise (e : E).
Arguments Return {E A} a.
Arguments Raise {E A} e.

(** [float(n)] for an [int]: the nearest binary64 number, ties to even;
    an [int] beyond the range of [float] raises [OverflowError]. *)
Definition float_of_int (n : Z) : result string spec_float :=
  match binary_normalize 53 1024 n 0 false with
  | S754_infinity _ => Raise "OverflowError"
  | x => Return x
  end.

(** [x + n] for a [float] [x] and an [int] [n]: the [int] is converted,
    then the two binary64 numbers are added. *)
Definition float_add_int (x : spec_float) (n : Z) : result string spec_float :=
  match float_of_int n with
  | Return y => Return (SFadd 53 1024 x y)
  | Raise e => Raise e
  end.

(** [pathlib.PurePath.stem] of a file name: the name up to its last dot,
    unless that dot is the first or the last character. *)
Definition stem (name : string) : string :=
  match rfind "." name with
  | Some i =>
      if (0 <? i)%nat && (i <? String.length name - 1)%nat
      then take_chars i name
      else name
  | None => name
  end.

End Py.

(** ** events.py *)

Module Events.

(** [Event]: a frozen dataclass. [timestamp] is a point in time and [id] the
    printed clock reading; both are chosen by whoever builds the event. An
    event is a value here: a middleware that changes [event.data] in place
    is one that returns the changed event, and what the history holds is the
    event as it was emitted. *)
Record Event : Type := {
  type : string;
  data : list (string * Py.json);
  source : string;
  timestamp : Z;
  id : string
}.

(** A handler is a Python callable, hashed and compared by identity: the
    bus only ever stores and compares the reference. *)
Abbreviation EventHandler := positive.

(** The [for ... in zip(event_parts, pattern_parts)] loop of
    [_matches_pattern], with its early [return False]. *)
Fixpoint parts_agree (event_parts pattern_parts : list string) : bool :=
  match event_parts, pattern_parts with
  | event_part :: event_rest, pattern_part :: pattern_rest =>
      if negb (pattern_part =? "*") && negb (pattern_part =? event_part)
      then false
      else parts_agree event_rest pattern_rest
  | _, _ => true
  end.

Definition _matches_pattern (event_type pattern : string) : bool :=
  if pattern =? "*" then true
  else
    let event_parts := Py.split "." event_type in
    let pattern_parts := Py.split "." pattern in
    if negb (length event_parts =? length pattern_parts)%nat then false
    else parts_agree event_parts pattern_parts.

(** The line [_call_handler] prints when a handler raises. *)
Definition handler_error_line (event : Event) (e : string) : string :=
  ("Event handler error for " ++ type event ++ ": " ++ e)%string.

(** Reading a record of handler calls: which handlers were called, and which
    lines their failures printed. *)
Definition called_handlers (calls : list (EventHandler * Event * option string)) : list EventHandler :=
  map (fun c => c.1.1) calls.

Definition error_lines (calls : list (EventHandler * Event * option string)) : list string :=
  omap (fun c => handler_error_line c.1.2 <$> c.2) calls.

Section Bus.

(** Whatever the handlers and middleware of the application read and
    write. *)
Context {W : Type}.

(** What calling (and, for a coroutine, awaiting) the handler object does
    to the world: it returns, or raises an [Exception] whose [str] is the
    given text. The world does not hold the bus: a handler that calls back
    into the bus is not represented. *)
Variable call : EventHandler -> Event -> W -> W * option string.

(** A middleware is an awaited callable from an event to an event; it may
    raise. *)
Definition Middleware : Type := Event -> W -> W * Py.result string Event.

Record EventBus : Type := {
  _handlers : gmap string (gset EventHandler);
  _middleware : list Middleware;
  _history : list Event;
  _max_history : nat
}.

(** What is outside the bus object: the application's world, the lines
    printed so far, and the record of handler calls made so far (handler,
    event passed, text of the exception if it raised). *)
Record Runtime : Type := {
  world : W;
  stdout : list string;
  invoked : list (EventHandler * Event * option string)
}.

Definition __init__ : EventBus :=
  {| _handlers := ∅; _middleware := []; _history := []; _max_history := 1000 |}.

(** [bus.on(event_type)(handler)]; [_handlers] is a [defaultdict(set)]. *)
Definition on (event_type : string) (handler : EventHandler) (bus : EventBus) : EventBus :=
  {| _handlers :=
       <[event_type := default ∅ (_handlers bus !! event_type) ∪ {[handler]}]>
         (_handlers bus);
     _middleware := _middleware bus;
     _history := _history bus;
     _max_history := _max_history bus |}.

Definition off (event_type : string) (handler : EventHandler) (bus : EventBus) : EventBus * bool :=
  match _handlers bus !! event_type with
  | Some registered =>
      ({| _handlers := <[event_type := registered ∖ {[handler]}]> (_handlers bus);
          _middleware := _middleware bus;
          _history := _history bus;
          _max_history := _max_history bus |}, true)
  | None => (bus, false)
  end.

Definition use (middleware : Middleware) (bus : EventBus) : EventBus :=
  {| _handlers := _handlers bus;
     _middleware := _middleware bus ++ [middleware];
     _history := _history bus;
     _max_history := _max_history bus |}.

(** Lines 149-153 of [emit]: append, then drop the head when over the
    bound. *)
Definition record_history (event : Event) (bus : EventBus) : EventBus :=
  let appended := _history bus ++ [event] in
  {| _handlers := _handlers bus;
     _middleware := _middleware bus;
     _history :=
       if (_max_history bus <? length appended)%nat then drop 1 appended
       else appended;
     _max_history := _max_history bus |}.

(** Lines 156-158 of [emit]: the middleware loop. *)
Fixpoint apply_middleware (chain : list Middleware) (processed_event : Event) (w : W) : W * Py.result string Event :=
  match chain with
  | [] => (w, Py.Return processed_event)
  | middleware :: rest =>
      match middleware processed_event w with
      | (w', Py.Return next_event) => apply_middleware rest next_event w'
      | (w', Py.Raise e) => (w', Py.Raise e)
      end
  end.

(** Lines 161-164 of [emit]: the handlers of every registered pattern that
    matches the given type. *)
Definition matching_handlers (bus : EventBus) (event_type : string) : gset EventHandler :=
  map_fold
    (fun pattern pattern_handlers handlers =>
       if _matches_pattern event_type pattern
       then handlers ∪ pattern_handlers
       else handlers)
    ∅ (_handlers bus).

Definition _call_handler (handler : EventHandler) (event : Event) (rt : Runtime) : Runtime :=
  match call handler event (world rt) with
  | (w', None) =>
      {| world := w';
         stdout := stdout rt;
         invoked := invoked rt ++ [(handler, event, None)] |}
  | (w', Some e) =>
      {| world := w';
         stdout := stdout rt ++ [handler_error_line event e];
         invoked := invoked rt ++ [(handler, event, Some e)] |}
  end.

(** [asyncio.gather] over [_call_handler] for each handler of the set, the
    handlers taken in the set's iteration order. The run of a handler is
    one step: this is the schedule of handlers that do not suspend, and the
    interleaving of handlers that do is not represented. *)
Definition gather (handlers : list EventHandler) (event : Event) (rt : Runtime) : Runtime :=
  foldl (fun rt handler => _call_handler handler event rt) rt handlers.

Definition emit (event : Event) (bus : EventBus) (rt : Runtime) : EventBus * Runtime * Py.result string unit :=
  let bus := record_history event bus in
  match apply_middleware (_middleware bus) event (world rt) with
  | (w, Py.Raise e) =>
      (bus, {| world := w; stdout := stdout rt; invoked := invoked rt |}, Py.Raise e)
  | (w, Py.Return processed_event) =>
      let rt := {| world := w; stdout := stdout rt; invoked := invoked rt |} in
      let handlers := matching_handlers bus (type event) in
      if decide (handlers = ∅) then (bus, rt, Py.Return tt)
      else (bus, gather (elements handlers) processed_event rt, Py.Return tt)
  end.

(** The specification's words on dispatch, for comparison with what [emit]
    does: every dispatched handler runs in its turn, from the world its
    predecessor left, whether or not that one raised, and each failure
    prints its line. [spec_handlers_run] is the world and the lines so
    specified, written over [call] alone. *)
Fixpoint spec_handlers_run (handlers : list EventHandler) (event : Event) (w : W) : W * list string :=
  match handlers with
  | [] => (w, [])
  | handler :: rest =>
      let after_handler := call handler event w in
      let after_rest := spec_handlers_run rest event after_handler.1 in
      (after_rest.1,
       match after_handler.2 with
       | Some e => handler_error_line event e :: after_rest.2
       | None => after_rest.2
       end)
  end.

(** The handler calls one [emit] makes: what it adds to the record. *)
Definition calls_of_emit (event : Event) (bus : EventBus) (rt : Runtime) : list (EventHandler * Event * option string) :=
  drop (length (invoked rt)) (invoked (emit event bus rt).1.2).

(** [get_history]: an [event_type] of [None] or [''] does not filter. *)
Definition get_history (event_type : option string) (limit : Z) (bus : EventBus) : list Event :=
  let events :=
    match event_type with
    | Some t =>
        if t =? "" then _history bus
        else List.filter (fun e => type e =? t) (_history bus)
    | None => _history bus
    end in
  Py.slice_from (- limit) events.

Definition clear_history (bus : EventBus) : EventBus :=
  {| _handlers := _handlers bus;
     _middleware := _middleware bus;
     _history := [];
     _max_history := _max_history bus |}.

Definition handler_count (event_type : option string) (bus : EventBus) : nat :=
  let total := map_fold (fun _ handlers n => (n + size handlers)%nat) 0%nat (_handlers bus) in
  match event_type with
  | Some t =>
      if t =? "" then total
      else size (default (∅ : gset EventHandler) (_handlers bus !! t))
  | None => total
  end.

(** The public operations of a bus, for statements about every sequence of
    calls. *)
Inductive BusOp : Type :=
| OpOn (event_type : string) (handler : EventHandler)
| OpOff (event_type : string) (handler : EventHandler)
| OpEmit (event : Event)
| OpUse (middleware : Middleware)
| OpGetHistory (event_type : option string) (limit : Z)
| OpClearHistory
| OpHandlerCount (event_type : option string).

Definition step (st : EventBus * Runtime) (op : BusOp) : EventBus * Runtime :=
  let '(bus, rt) := st in
  match op with
  | OpOn event_type handler => (on event_type handler bus, rt)
  | OpOff event_type handler => (fst (off event_type handler bus), rt)
  | OpEmit event => fst (emit event bus rt)
  | OpUse middleware => (use middleware bus, rt)
  | OpGetHistory _ _ => (bus, rt)
  | OpClearHistory => (clear_history bus, rt)
  | OpHandlerCount _ => (bus, rt)
  end.

Definition run (ops : list BusOp) (st : EventBus * Runtime) : EventBus * Runtime :=
  foldl step st ops.

(** The last [n] elements of a list. *)
Definition last_n {A : Type} (n : nat) (l : list A) : list A :=
  drop (length l - n) l.

(** The events emitted since the history was last cleared, oldest first. *)
Definition emitted_since_clear (ops : list BusOp) : list Event :=
  foldl
    (fun log op =>
       match op with
       | OpEmit event => log ++ [event]
       | OpClearHistory => []
       | _ => log
       end)
    [] ops.

End Bus.

End Events.

(** ** state.py *)

Module State.

(** [State]: key, value, version and metadata; [__post_init__] turns a
    [None] metadata into the empty dict, so a built record always carries a
    dict. *)
Record State : Type := {
  key : string;
  value : Py.json;
  version : Z;
  metadata : list (string * Py.json)
}.

(** A JSON object as [FileStateBackend.get] reads it: four members, each of
    them possibly missing, of the types [State] declares. *)
Record document : Type := {
  doc_key : option string;
  doc_value : option Py.json;
  doc_version : option Z;
  doc_metadata : option (list (string * Py.json))
}.

(** A file of the state directory as [FileStateBackend.get] meets it:
    bytes that [read_text] cannot decode ([UnicodeDecodeError]), text that
    [json.loads] rejects ([JSONDecodeError]), JSON text of something other
    than an object (a list, a string, a number, [true], [false] or [null],
    on which [data["key"]] raises [TypeError]), or a JSON object. Every
    file name is taken to be one the file system accepts. *)
Inductive file_content : Type :=
| NotText
| Undecodable
| NotObject
| Decoded (data : document).

(** The abstract base class [StateBackend] over a store [B]. *)
Class StateBackend (B : Type) : Type := {
  backend_get : string -> B -> Py.result string (option State);
  backend_set : State -> B -> Py.result string (B * bool);
  backend_delete : string -> B -> B * bool;
  backend_list_keys : string -> B -> list string;
  backend_clear : B -> B * nat
}.

(** [FileStateBackend]: the store is the content of [base_dir], file name
    to file content. *)
Module FileStateBackend.

(** The [safe_key] of [_file_path]: the key with each slash and backslash
    replaced by an underscore. *)
Definition safe_key (key : string) : string :=
  Py.replace "\" "_" (Py.replace "/" "_" key).

Definition _file_path (key : string) : string :=
  (safe_key key ++ ".json")%string.

(** [get] catches [JSONDecodeError] and [KeyError] and nothing else. *)
Definition get (key : string) (base_dir : gmap string file_content) : Py.result string (option State) :=
  match base_dir !! _file_path key with
  | None => Py.Return None
  | Some NotText => Py.Raise "UnicodeDecodeError"
  | Some Undecodable => Py.Return None
  | Some NotObject => Py.Raise "TypeError"
  | Some (Decoded data) =>
      match doc_key data, doc_value data with
      | Some k, Some v =>
          Py.Return
            (Some {| key := k;
                     value := v;
                     version := default 1%Z (doc_version data);
                     metadata := default [] (doc_metadata data) |})
      | _, _ => Py.Return None
      end
  end.

(** What [json.dumps(data, indent=2)] of [set] decodes back to. *)
Definition dumps (state : State) : file_content :=
  Decoded {| doc_key := Some (key state);
             doc_value := Some (value state);
             doc_version := Some (version state);
             doc_metadata := Some (metadata state) |}.

Definition set (state : State) (base_dir : gmap string file_content) : Py.result string (gmap string file_content * bool) :=
  let file_path := _file_path (key state) in
  let write := (<[file_path := dumps state]> base_dir, true) in
  match get (key state) base_dir with
  | Py.Raise e => Py.Raise e
  | Py.Return (Some existing) =>
      if negb (version existing =? version state - 1)%Z
      then Py.Return (base_dir, false)
      else Py.Return write
  | Py.Return None => Py.Return write
  end.

(** [delete] looks at the name only, never at the content. *)
Definition delete (key : string) (base_dir : gmap string file_content) : gmap string file_content * bool :=
  let file_path := _file_path key in
  match base_dir !! file_path with
  | Some _ => (base.delete file_path base_dir, true)
  | None => (base_dir, false)
  end.

(** [base_dir.glob("*.json")]: the names that end in [.json], in the order
    the directory yields them. *)
Definition glob_json (base_dir : gmap string file_content) : list string :=
  List.filter (fun name => Py.endswith name ".json") (map fst (map_to_list base_dir)).

Definition list_keys (prefix : string) (base_dir : gmap string file_content) : list string :=
  List.filter (fun key => Py.startswith key prefix) (map Py.stem (glob_json base_dir)).

Definition clear (base_dir : gmap string file_content) : gmap string file_content * nat :=
  foldl (fun '(dir, count) file_path => (base.delete file_path dir, S count))
        (base_dir, 0%nat) (glob_json base_dir).

(** A file [get] answers [None] for: text that is not JSON, or a JSON
    object that lacks the member [key] or the member [value]. *)
Definition unreadable (content : file_content) : Prop :=
  match content with
  | Undecodable => True
  | Decoded data => doc_key data = None \/ doc_value data = None
  | NotText | NotObject => False
  end.

End FileStateBackend.

#[export] Instance file_state_backend : StateBackend (gmap string file_content) := {|
  backend_get := FileStateBackend.get;
  backend_set := FileStateBackend.set;
  backend_delete := FileStateBackend.delete;
  backend_list_keys := FileStateBackend.list_keys;
  backend_clear := FileStateBackend.clear
|}.

(** [StateManager]: the store it threads is its backend's; a call that
    raises leaves the store as it was. *)
Module StateManager.

Section Manager.

Context {B : Type} `{!StateBackend B}.

Definition get (key : string) (default_value : Py.json) (backend : B) : Py.result string Py.json :=
  match backend_get key backend with
  | Py.Raise e => Py.Raise e
  | Py.Return (Some state) => Py.Return (value state)
  | Py.Return None => Py.Return default_value
  end.

(** [metadata or {}]: [None] and the empty dict both give the empty dict. *)
Definition set (key : string) (value : Py.json) (metadata : option (list (string * Py.json))) (backend : B) : Py.result string B :=
  match backend_get key backend with
  | Py.Raise e => Py.Raise e
  | Py.Return existing =>
      let version :=
        match existing with
        | Some existing => (version existing + 1)%Z
        | None => 1%Z
        end in
      let state :=
        {| key := key; value := value; version := version;
           metadata := default [] metadata |} in
      match backend_set state backend with
      | Py.Raise e => Py.Raise e
      | Py.Return written => Py.Return written.1
      end
  end.

Definition update (key : string) (value : Py.json) (version : option Z) (backend : B) : Py.result string (B * bool) :=
  match backend_get key backend with
  | Py.Raise e => Py.Raise e
  | Py.Return existing =>
      let conflict :=
        match version, existing with
        | Some expected, Some existing => negb (State.version existing =? expected)%Z
        | Some _, None => true
        | None, _ => false
        end in
      if conflict then Py.Return (backend, false)
      else
        let new_version :=
          match existing with
          | Some existing => (State.version existing + 1)%Z
          | None => 1%Z
          end in
        let state :=
          {| key := key; value := value; version := new_version;
             metadata :=
               match existing with
               | Some existing => metadata existing
               | None => []
               end |} in
        backend_set state backend
  end.

Definition delete (key : string) (backend : B) : B * bool :=
  backend_delete key backend.

Definition exists_ (key : string) (backend : B) : Py.result string bool :=
  match backend_get key backend with
  | Py.Raise e => Py.Raise e
  | Py.Return (Some _) => Py.Return true
  | Py.Return None => Py.Return false
  end.

(** [increment]: [current + amount] is an [int] for a stored [int] or
    [bool] (which Python counts as 0 and 1), a [float] for a stored
    [float], and raises [TypeError] on any other stored value; the sum is
    written through [set] without metadata and returned. *)
Definition increment (key : string) (amount : Z) (backend : B) : Py.result string (B * Py.json) :=
  match get key (Py.JInt 0) backend with
  | Py.Raise e => Py.Raise e
  | Py.Return current =>
      let sum :=
        match current with
        | Py.JInt n => Py.Return (Py.JInt (n + amount))
        | Py.JBool b => Py.Return (Py.JInt (Z.b2z b + amount))
        | Py.JFloat x =>
            match Py.float_add_int x amount with
            | Py.Return y => Py.Return (Py.JFloat y)
            | Py.Raise e => Py.Raise e
            end
        | _ => Py.Raise "TypeError"
        end in
      match sum with
      | Py.Raise e => Py.Raise e
      | Py.Return new_value =>
          match set key new_value None backend with
          | Py.Raise e => Py.Raise e
          | Py.Return written => Py.Return (written, new_value)
          end
      end
  end.

Definition list_ (prefix : string) (backend : B) : list string :=
  backend_list_keys prefix backend.

Definition clear (backend : B) : B * nat :=
  backend_clear backend.

Definition get_state_obj (key : string) (backend : B) : Py.result string (option State) :=
  backend_get key backend.

End Manager.

(** The file store after a sequence of [set(key, value, metadata)] calls on
    an empty directory. *)
Definition written (writes : list (string * Py.json * option (list (string * Py.json)))) : gmap string file_content :=
  foldl
    (fun base_dir w =>
       match set w.1.1 w.1.2 w.2 base_dir with
       | Py.Return after => after
       | Py.Raise _ => base_dir
       end)
    ∅ writes.

Definition written_keys (writes : list (string * Py.json * option (list (string * Py.json)))) : list string :=
  map (fun w => w.1.1) writes.

End StateManager.

End State.


(** ** Concrete buses, events and stores *)

Module Samples.
Import Events State.

Definition event_of_type (t : string) : Event :=
  {| type := t; data := []; source := "unknown"; timestamp := 0; id := "0" |}.

(** Handlers that return without touching the world. *)
Definition quiet_call : EventHandler -> Event -> unit -> unit * option string :=
  fun _ _ w => (w, None).

(** A middleware that returns its event under the type [b]. *)
Definition retype_to_b : Middleware (W:=unit) :=
  fun event w =>
    (w, Py.Return {| type := "b"; data := data event; source := source event;
                     timestamp := timestamp event; id := id event |}).

Definition retyping_bus : EventBus (W:=unit) :=
  use retype_to_b (on "a" 1%positive __init__).

Definition fresh_runtime {W : Type} (w : W) : Runtime (W:=W) :=
  {| world := w; stdout := []; invoked := [] |}.

(** The two handlers of [test_handler_error_isolation]: handler 2 raises,
    handler 1 records that it ran. *)
Definition failing_and_success_call : EventHandler -> Event -> bool -> bool * option string :=
  fun handler _ handler2_called =>
    if decide (handler = 2%positive) then (handler2_called, Some "Handler error")
    else (true, None).

Definition isolation_bus : EventBus (W:=bool) :=
  on "test.event" 1%positive (on "test.event" 2%positive __init__).

(** A first record for a key, declared at version 5. *)
Definition first_write_at_5 : State.State :=
  {| key := "k"; value := Py.JNull; version := 5; metadata := [] |}.

(** A directory whose file for the key [k] is cut off in the middle. *)
Definition torn_dir : gmap string file_content :=
  {[ "k.json" := Undecodable ]}.

Definition tagged_record : State.State :=
  {| key := "k"; value := Py.JInt 1; version := 3;
     metadata := [("source", Py.JStr "webhook")] |}.

Definition tagged_dir : gmap string file_content :=
  {[ "k.json" := FileStateBackend.dumps tagged_record ]}.

(** One record written under a key with a path separator. *)
Definition slash_writes : list (string * Py.json * option (list (string * Py.json))) :=
  [("a/b", Py.JNull, None)].

(** One record written under the empty key. *)
Definition empty_key_writes : list (string * Py.json * option (list (string * Py.json))) :=
  [("", Py.JNull, None)].

Definition plain_writes : list (string * Py.json * option (list (string * Py.json))) :=
  [("pr:2", Py.JNull, None); ("other", Py.JNull, None); ("pr:1", Py.JInt 1, None)].

(** A middleware that raises. *)
Definition failing_middleware : Middleware (W:=unit) :=
  fun _ w => (w, Py.Raise "boom").

(** A bus with handler 1 under [a] and handler 2 under [a.*]. *)
Definition two_pattern_bus : EventBus (W:=unit) :=
  on "a.*" 2%positive (on "a" 1%positive __init__).

(** The history of a bus after three emissions. *)
Definition three_events_bus : EventBus (W:=unit) :=
  record_history (event_of_type "event1")
    (record_history (event_of_type "event2")
       (record_history (event_of_type "event1") __init__)).

(** A directory holding the record of [k] and a file that is no state
    file. *)
Definition mixed_dir : gmap string file_content :=
  <[ "notes.txt" := Undecodable ]> tagged_dir.

(** A directory whose file for [k] is not text, and one whose file for [k]
    holds a JSON list. *)
Definition binary_dir : gmap string file_content :=
  {[ "k.json" := NotText ]}.

Definition list_dir : gmap string file_content :=
  {[ "k.json" := NotObject ]}.

(** Handlers that count their calls in the world. *)
Definition counting_call : EventHandler -> Event -> nat -> nat * option string :=
  fun _ _ calls => (S calls, None).

(** A bus on which handler 1 was registered twice under [a] and whose
    middleware raises. *)
Definition twice_registered_failing_bus : EventBus (W:=nat) :=
  use (fun _ w => (w, Py.Raise "boom")) (on "a" 1%positive (on "a" 1%positive __init__)).

(** A directory whose record for [k] holds a string. *)
Definition text_dir : gmap string file_content :=
  {[ "k.json" := FileStateBackend.dumps
       {| key := "k"; value := Py.JStr "seven"; version := 1; metadata := [] |} ]}.

(** A directory whose record for [k] holds the float 1.5. *)
Definition float_dir : gmap string file_content :=
  {[ "k.json" := FileStateBackend.dumps
       {| key := "k"; value := Py.JFloat (S754_finite false 6755399441055744 (-52));
          version := 1; metadata := [] |} ]}.

End Samples.

(** ** Properties of events.py *)

Module EventsSpec.
Import Events.

(** *** Segments *)

Lemma split_nonempty (sep : ascii) (s : string) : Py.split sep s <> [].
Proof.
  destruct s as [|c s]; simpl; [done|].
  destruct (Ascii.eqb c sep); [done|]. by destruct (Py.split sep s).
Qed.

(** The segments of a string are free of the separator, and joined by it
    they give the string back: they are its separator-delimited pieces. *)
Lemma split_join (sep : ascii) (s : string) : Py.join sep (Py.split sep s) = s.
Proof.
  induction s as [|c s IH]; [done|]. simpl.
  pose proof (split_nonempty sep s) as Hne.
  destruct (Ascii.eqb_spec c sep) as [->|Hc].
  - destruct (Py.split sep s) as [|seg segs]; [done|].
    change (Py.join sep ("" :: seg :: segs))
      with (String sep (Py.join sep (seg :: segs))).
    by rewrite IH.
  - destruct (Py.split sep s) as [|seg segs]; [done|].
    destruct segs as [|seg' segs]; simpl in *; by rewrite <- IH.
Qed.

Lemma split_sep_free (sep : ascii) (s seg : string) :
  seg ∈ Py.split sep s -> Py.contains sep seg = false.
Proof.
  revert seg. induction s as [|c s IH]; intros seg; simpl.
  - by intros ->%list_elem_of_singleton.
  - pose proof (split_nonempty sep s) as Hne.
    destruct (Ascii.eqb_spec c sep) as [->|Hc].
    + intros [->|Hin]%elem_of_cons; [done|]. by apply IH.
    + destruct (Py.split sep s) as [|first rest]; [done|].
      intros [->|Hin]%elem_of_cons.
      * simpl. rewrite (IH first) by (by left).
        by destruct (Ascii.eqb_spec c sep).
      * apply IH. by right.
Qed.

(** *** Matching *)

Lemma parts_agree_spec (es ps : list string) :
  length es = length ps ->
  parts_agree es ps = true <->
  forall i p e, ps !! i = Some p -> es !! i = Some e -> p = "*" \/ p = e.
Proof.
  revert ps. induction es as [|e es IH]; intros [|p ps] Hlen; simpl in *; try discriminate.
  - split; [|done]. intros _ i p e Hp. by rewrite lookup_nil in Hp.
  - injection Hlen as Hlen. specialize (IH ps Hlen).
    destruct (String.eqb_spec p "*") as [->|Hstar]; simpl.
    + rewrite IH. split.
      * intros H [|i] p' e' Hp He; simpl in *; [left; congruence | eauto].
      * intros H i p' e' Hp He. apply (H (S i)); done.
    + destruct (String.eqb_spec p e) as [->|Hpe]; simpl.
      * rewrite IH. split.
        -- intros H [|i] p' e' Hp He; simpl in *; [right; congruence | eauto].
        -- intros H i p' e' Hp He. apply (H (S i)); done.
      * split; [done|]. intros H.
        destruct (H 0%nat p e eq_refl eq_refl); contradiction.
Qed.

(** C1. The matcher answers true exactly when the pattern is the lone
    star, or pattern and event type have the same number of dot-separated
    segments and each pattern segment is the star or the event's segment
    at that position; with different segment counts (and a pattern other
    than the lone star) it answers false. *)
Theorem matches_pattern_segmentwise (t p : string) :
  (_matches_pattern t p = true <->
     p = "*" \/
     (length (Py.split "." t) = length (Py.split "." p) /\
      forall i ps ts,
        Py.split "." p !! i = Some ps ->
        Py.split "." t !! i = Some ts ->
        ps = "*" \/ ps = ts))
  /\ (p <> "*" ->
      length (Py.split "." t) <> length (Py.split "." p) ->
      _matches_pattern t p = false).
Proof.
  unfold _matches_pattern.
  destruct (String.eqb_spec p "*") as [->|Hp].
  - split; [split; auto | done].
  - destruct (Nat.eqb_spec (length (Py.split "." t)) (length (Py.split "." p))) as [Hlen|Hlen]; simpl.
    + split; [|done]. rewrite (parts_agree_spec _ _ Hlen). split.
      * intros H. right. split; [done|]. exact H.
      * intros [?|[_ H]]; [done|exact H].
    + split; [|done]. split; [done|]. intros [?|[? _]]; done.
Qed.

(** The scenario of the bus tests and of the class docstring: a star stands
    for exactly one segment. *)
Example matches_pattern_runs :
  _matches_pattern "github.pr.opened" "github.pr.*" = true /\
  _matches_pattern "github.issue.opened" "github.pr.*" = false /\
  _matches_pattern "github.pr.created" "github.*.created" = true /\
  _matches_pattern "github.pr.created" "github.*" = false /\
  _matches_pattern "github.pr.created" "github" = false /\
  _matches_pattern "github.pr.created" "*" = true.
Proof. vm_compute. done. Qed.

(** *** Dispatch *)

Section Dispatch.

Context {W : Type}.
Variable call : EventHandler -> Event -> W -> W * option string.

Lemma matching_handlers_spec (bus : EventBus (W:=W)) (t : string) (h : EventHandler) :
  h ∈ matching_handlers bus t <->
  exists p hs, _handlers bus !! p = Some hs /\ _matches_pattern t p = true /\ h ∈ hs.
Proof.
  unfold matching_handlers.
  apply (map_fold_weak_ind
           (fun (r : gset EventHandler) (m : gmap string (gset EventHandler)) =>
              h ∈ r <-> exists p hs, m !! p = Some hs /\ _matches_pattern t p = true /\ h ∈ hs)).
  - split; [set_solver|]. intros (p & hs & Hp & _). by rewrite lookup_empty in Hp.
  - intros p hs m r Hfresh IH. split.
    + intros Hin. destruct (_matches_pattern t p) eqn:Hm.
      * apply elem_of_union in Hin as [Hin|Hin].
        -- apply IH in Hin as (q & hs' & Hq & Hmq & Hh).
           exists q, hs'. split; [|done].
           rewrite lookup_insert_ne; [done|]. intros ->. congruence.
        -- exists p, hs. by rewrite lookup_insert_eq.
      * apply IH in Hin as (q & hs' & Hq & Hmq & Hh).
        exists q, hs'. split; [|done].
        rewrite lookup_insert_ne; [done|]. intros ->. congruence.
    + intros (q & hs' & Hq & Hmq & Hh).
      destruct (decide (p = q)) as [->|Hne].
      * rewrite lookup_insert_eq in Hq. injection Hq as <-.
        rewrite Hmq. apply elem_of_union. by right.
      * rewrite lookup_insert_ne in Hq by done.
        assert (h ∈ r) by (apply IH; eauto).
        destruct (_matches_pattern t p); [apply elem_of_union; by left | done].
Qed.

Lemma gather_spec (hs : list EventHandler) (e : Event) (rt : Runtime (W:=W)) :
  exists calls,
    invoked (gather call hs e rt) = invoked rt ++ calls /\
    stdout (gather call hs e rt) = stdout rt ++ error_lines calls /\
    map (fun c => (c.1.1, c.1.2)) calls = map (fun h => (h, e)) hs.
Proof.
  revert rt. induction hs as [|h hs IH]; intros rt; simpl.
  - exists []. by rewrite !app_nil_r.
  - destruct (IH (_call_handler call h e rt)) as (calls & Hinv & Hout & Hmap).
    unfold gather in *. rewrite Hinv, Hout. unfold _call_handler.
    destruct (call h e (world rt)) as [w' [msg|]]; simpl.
    + exists ((h, e, Some msg) :: calls). rewrite <- !app_assoc. simpl. by rewrite Hmap.
    + exists ((h, e, None) :: calls). rewrite <- !app_assoc. simpl. by rewrite Hmap.
Qed.

(** What one emission does once the middleware chain has returned. *)
Lemma emit_dispatch (event : Event) (bus : EventBus) (rt : Runtime) (w : W) (processed_event : Event) :
  apply_middleware (_middleware bus) event (world rt) = (w, Py.Return processed_event) ->
  (emit call event bus rt).2 = Py.Return tt /\
  (emit call event bus rt).1.1 = record_history event bus /\
  stdout (emit call event bus rt).1.2 =
    stdout rt ++ error_lines (calls_of_emit call event bus rt) /\
  map (fun c => (c.1.1, c.1.2)) (calls_of_emit call event bus rt) =
    map (fun h => (h, processed_event)) (elements (matching_handlers bus (type event))).
Proof.
  intros Hmw. unfold calls_of_emit, emit. simpl. rewrite Hmw.
  change (matching_handlers (record_history event bus) (type event))
    with (matching_handlers bus (type event)).
  destruct (decide (matching_handlers bus (type event) = ∅)) as [Hempty|Hsome]; simpl.
  - rewrite Hempty, elements_empty, drop_all, app_nil_r. done.
  - match goal with |- context [gather call ?hs ?e ?r] =>
      destruct (gather_spec hs e r) as (calls & Hinv & Hout & Hmap)
    end.
    simpl in *. rewrite Hinv, Hout, drop_app_length. done.
Qed.

(** C3, as the claim states it, fails: the bus registers handler 1 under
    [a], a middleware retypes every event to [b], and an event of type [a]
    is emitted. Handler 1 is called although no registered pattern matches
    the type of the event the middleware returned. *)
Lemma emit_matches_before_middleware :
  apply_middleware (_middleware Samples.retyping_bus) (Samples.event_of_type "a") tt
    = (tt, Py.Return (Samples.event_of_type "b")) /\
  called_handlers
    (calls_of_emit Samples.quiet_call (Samples.event_of_type "a")
       Samples.retyping_bus (Samples.fresh_runtime tt)) = [1%positive] /\
  elements (matching_handlers Samples.retyping_bus "b") = [].
Proof. vm_compute. done. Qed.

(** C3, amended. When the middleware chain returns, the handlers [emit]
    calls are the union of the handler sets of the registered patterns that
    match the type of the event as it was emitted, and each of them is
    passed the event the last middleware returned. *)
Theorem emit_dispatches_on_emitted_type (event : Event) (bus : EventBus) (rt : Runtime) (w : W) (processed_event : Event) :
  apply_middleware (_middleware bus) event (world rt) = (w, Py.Return processed_event) ->
  forall h e,
    (exists outcome, (h, e, outcome) ∈ calls_of_emit call event bus rt) <->
    (e = processed_event /\
     exists p hs, _handlers bus !! p = Some hs /\
                  _matches_pattern (type event) p = true /\ h ∈ hs).
Proof.
  intros Hmw h e.
  destruct (emit_dispatch event bus rt w processed_event Hmw) as (_ & _ & _ & Hmap).
  rewrite <- matching_handlers_spec, <- elem_of_elements.
  split.
  - intros [o Hin].
    assert (Hpair : (h, e) ∈ map (fun c => (c.1.1, c.1.2)) (calls_of_emit call event bus rt)).
    { apply (list_elem_of_fmap_2 (fun c : EventHandler * Event * option string => (c.1.1, c.1.2)) _ _ Hin). }
    rewrite Hmap in Hpair.
    apply (list_elem_of_fmap (fun h => (h, processed_event))) in Hpair as (h' & Heq & Hh').
    injection Heq as -> ->. done.
  - intros [-> Hin].
    assert (Hpair : (h, processed_event) ∈ map (fun c => (c.1.1, c.1.2)) (calls_of_emit call event bus rt)).
    { rewrite Hmap. apply (list_elem_of_fmap_2 (fun h => (h, processed_event)) _ _ Hin). }
    apply (list_elem_of_fmap (fun c : EventHandler * Event * option string => (c.1.1, c.1.2))) in Hpair
      as ([[h' e'] o] & Heq & Hc).
    simpl in Heq. injection Heq as -> ->. by exists o.
Qed.

Lemma called_handlers_of_emit (event : Event) (bus : EventBus) (rt : Runtime) (w : W) (processed_event : Event) :
  apply_middleware (_middleware bus) event (world rt) = (w, Py.Return processed_event) ->
  called_handlers (calls_of_emit call event bus rt) =
    elements (matching_handlers bus (type event)).
Proof.
  intros Hmw.
  destruct (emit_dispatch event bus rt w processed_event Hmw) as (_ & _ & _ & Hmap).
  apply (f_equal (map fst)) in Hmap. rewrite !map_map in Hmap. simpl in Hmap.
  rewrite map_id in Hmap. exact Hmap.
Qed.


Lemma handlers_run_app (before after : list EventHandler) (e : Event) (w : W) :
  spec_handlers_run call (before ++ after) e w =
    ((spec_handlers_run call after e (spec_handlers_run call before e w).1).1,
     (spec_handlers_run call before e w).2
       ++ (spec_handlers_run call after e (spec_handlers_run call before e w).1).2).
Proof.
  revert w. induction before as [|h before IH]; intros w; simpl.
  - by destruct (spec_handlers_run call after e w).
  - rewrite IH. simpl. by destruct (call h e w).2.
Qed.

(** [gather] does to the world and to the output what [spec_handlers_run]
    specifies. *)
Lemma gather_runs (hs : list EventHandler) (e : Event) (rt : Runtime (W:=W)) :
  world (gather call hs e rt) = (spec_handlers_run call hs e (world rt)).1 /\
  stdout (gather call hs e rt) = stdout rt ++ (spec_handlers_run call hs e (world rt)).2.
Proof.
  revert rt. induction hs as [|h hs IH]; intros rt; simpl.
  - by rewrite app_nil_r.
  - destruct (IH (_call_handler call h e rt)) as [Hworld Hout].
    unfold gather in *. rewrite Hworld, Hout. unfold _call_handler.
    destruct (call h e (world rt)) as [w' [msg|]]; simpl; [|done].
    by rewrite <- app_assoc.
Qed.

Lemma emit_runs (event : Event) (bus : EventBus) (rt : Runtime) (w : W) (processed_event : Event) :
  apply_middleware (_middleware bus) event (world rt) = (w, Py.Return processed_event) ->
  world (emit call event bus rt).1.2 =
    (spec_handlers_run call (elements (matching_handlers bus (type event))) processed_event w).1 /\
  stdout (emit call event bus rt).1.2 =
    stdout rt
      ++ (spec_handlers_run call (elements (matching_handlers bus (type event))) processed_event w).2.
Proof.
  intros Hmw. unfold emit. simpl. rewrite Hmw.
  change (matching_handlers (record_history event bus) (type event))
    with (matching_handlers bus (type event)).
  destruct (decide (matching_handlers bus (type event) = ∅)) as [Hempty|Hsome]; simpl.
  - rewrite Hempty, elements_empty. simpl. by rewrite app_nil_r.
  - match goal with |- context [gather call ?hs ?e ?r] =>
      destruct (gather_runs hs e r) as [Hworld Hout]
    end.
    done.
Qed.

(** C5. Whatever the handlers do, an emission whose middleware chain has
    returned returns normally, and there is an order of the matched
    handlers, each of them once, in which every one of them has run: the
    world and the printed lines after [emit] are those of calling each
    handler of the order in its turn, from the world the one before it
    left, whether that one returned or raised. So the handlers after a
    failing handler run all the same, from the world it left, its line is
    printed, and no exception reaches the caller. *)
Theorem handler_failure_is_contained (event : Event) (bus : EventBus) (rt : Runtime) (w : W) (processed_event : Event) :
  apply_middleware (_middleware bus) event (world rt) = (w, Py.Return processed_event) ->
  (emit call event bus rt).2 = Py.Return tt /\
  stdout (emit call event bus rt).1.2 =
    stdout rt ++ error_lines (calls_of_emit call event bus rt) /\
  (forall h e msg,
     (h, e, Some msg) ∈ calls_of_emit call event bus rt ->
     handler_error_line e msg ∈ stdout (emit call event bus rt).1.2) /\
  exists order,
    order ≡ₚ elements (matching_handlers bus (type event)) /\
    called_handlers (calls_of_emit call event bus rt) = order /\
    (forall h, h ∈ matching_handlers bus (type event) ->
       count_occ Pos.eq_dec order h = 1%nat) /\
    world (emit call event bus rt).1.2 = (spec_handlers_run call order processed_event w).1 /\
    stdout (emit call event bus rt).1.2 =
      stdout rt ++ (spec_handlers_run call order processed_event w).2 /\
    (forall before h after,
       order = before ++ h :: after ->
       world (emit call event bus rt).1.2 =
         (spec_handlers_run call after processed_event
            (call h processed_event (spec_handlers_run call before processed_event w).1).1).1 /\
       forall msg,
         (call h processed_event (spec_handlers_run call before processed_event w).1).2 = Some msg ->
         handler_error_line processed_event msg ∈ stdout (emit call event bus rt).1.2).
Proof.
  intros Hmw.
  pose proof (called_handlers_of_emit event bus rt w processed_event Hmw) as Hcalled.
  destruct (emit_dispatch event bus rt w processed_event Hmw) as (Hret & _ & Hout & _).
  destruct (emit_runs event bus rt w processed_event Hmw) as [Hworld Hlines].
  split; [done|]. split; [done|]. split.
  { intros h e msg Hin. rewrite Hout. apply elem_of_app. right.
    unfold error_lines. apply list_elem_of_omap.
    exists (h, e, Some msg). done. }
  exists (elements (matching_handlers bus (type event))).
  split; [done|]. split; [done|]. split.
  { intros h Hh.
    apply NoDup_count_occ'; [apply NoDup_ListNoDup, NoDup_elements|].
    apply list_elem_of_In, elem_of_elements, Hh. }
  split; [done|]. split; [done|].
  intros before h after Horder. rewrite Hworld, Hlines, Horder.
  rewrite handlers_run_app. simpl. split; [done|].
  intros msg Hmsg. rewrite Hmsg.
  apply elem_of_app. right. apply elem_of_app. right. by left.
Qed.

Lemma on_on (p : string) (h : EventHandler) (bus : EventBus (W:=W)) :
  on p h (on p h bus) = on p h bus.
Proof.
  unfold on. simpl. f_equal.
  rewrite lookup_insert_eq, insert_insert_eq. simpl. f_equal.
  by rewrite <- (assoc_L (∪)), (idemp_L (∪)).
Qed.


(** C8, as the claim states it, fails: see [failing_middleware_skips_handler]
    below. C8, amended. Registering a handler under a pattern a second time
    leaves the bus as the first registration left it, and an emission of a
    matching type whose middleware chain returns runs the handler exactly
    once: the handlers run are some handlers other than it, then it, then
    some handlers other than it, each called once. *)
Theorem on_twice_is_on_once (p : string) (h : EventHandler) (bus : EventBus) :
  on p h (on p h bus) = on p h bus /\
  forall event rt w processed_event,
    _matches_pattern (type event) p = true ->
    apply_middleware (_middleware bus) event (world rt) = (w, Py.Return processed_event) ->
    count_occ Pos.eq_dec
      (called_handlers (calls_of_emit call event (on p h (on p h bus)) rt)) h = 1%nat /\
    exists before after,
      before ++ h :: after ≡ₚ elements (matching_handlers (on p h bus) (type event)) /\
      (h ∉ before) /\ (h ∉ after) /\
      world (emit call event (on p h (on p h bus)) rt).1.2 =
        (spec_handlers_run call (before ++ h :: after) processed_event w).1 /\
      stdout (emit call event (on p h (on p h bus)) rt).1.2 =
        stdout rt ++ (spec_handlers_run call (before ++ h :: after) processed_event w).2.
Proof.
  split; [apply on_on|].
  intros event rt w processed_event Hmatch Hmw.
  assert (Hin : h ∈ elements (matching_handlers (on p h bus) (type event))).
  { apply elem_of_elements, matching_handlers_spec.
    eexists p, _. split; [|split; [exact Hmatch|]].
    - unfold on. simpl. apply lookup_insert_eq.
    - apply elem_of_union. right. by apply elem_of_singleton. }
  split.
  - rewrite (called_handlers_of_emit event (on p h (on p h bus)) rt w processed_event Hmw).
    rewrite on_on.
    apply NoDup_count_occ'; [apply NoDup_ListNoDup, NoDup_elements|].
    by apply list_elem_of_In.
  - destruct (list_elem_of_split _ _ Hin) as (before & after & Hsplit).
    pose proof (NoDup_elements (matching_handlers (on p h bus) (type event))) as Hnodup.
    rewrite Hsplit in Hnodup.
    apply NoDup_app in Hnodup as (_ & Hbefore & Hrest).
    apply NoDup_cons in Hrest as [Hafter _].
    exists before, after. split; [by rewrite Hsplit|].
    split; [intros Hb; apply (Hbefore h Hb); by left|]. split; [done|].
    destruct (emit_runs event (on p h (on p h bus)) rt w processed_event Hmw)
      as [Hworld Hlines].
    rewrite Hworld, Hlines, on_on, Hsplit. done.
Qed.

End Dispatch.

Lemma emit_dispatches_on_emitted_type_witness :
  apply_middleware (_middleware Samples.retyping_bus) (Samples.event_of_type "a")
    (world (Samples.fresh_runtime tt)) = (tt, Py.Return (Samples.event_of_type "b")) /\
  forall h e,
    (exists outcome,
       (h, e, outcome) ∈ calls_of_emit Samples.quiet_call (Samples.event_of_type "a")
                           Samples.retyping_bus (Samples.fresh_runtime tt)) <->
    (e = Samples.event_of_type "b" /\
     exists p hs, _handlers Samples.retyping_bus !! p = Some hs /\
                  _matches_pattern (type (Samples.event_of_type "a")) p = true /\ h ∈ hs).
Proof.
  split; [reflexivity|].
  exact (emit_dispatches_on_emitted_type Samples.quiet_call (Samples.event_of_type "a")
           Samples.retyping_bus (Samples.fresh_runtime tt) tt (Samples.event_of_type "b") eq_refl).
Defined.


Lemma handler_failure_is_contained_witness :
  apply_middleware (_middleware Samples.isolation_bus) (Samples.event_of_type "test.event")
    (world (Samples.fresh_runtime false)) = (false, Py.Return (Samples.event_of_type "test.event")) /\
  (emit Samples.failing_and_success_call (Samples.event_of_type "test.event")
     Samples.isolation_bus (Samples.fresh_runtime false)).2 = Py.Return tt /\
  exists order,
    order ≡ₚ elements (matching_handlers Samples.isolation_bus "test.event") /\
    world (emit Samples.failing_and_success_call (Samples.event_of_type "test.event")
             Samples.isolation_bus (Samples.fresh_runtime false)).1.2 =
      (spec_handlers_run Samples.failing_and_success_call order
         (Samples.event_of_type "test.event") false).1 /\
    stdout (emit Samples.failing_and_success_call (Samples.event_of_type "test.event")
              Samples.isolation_bus (Samples.fresh_runtime false)).1.2 =
      [] ++ (spec_handlers_run Samples.failing_and_success_call order
               (Samples.event_of_type "test.event") false).2.
Proof.
  split; [reflexivity|].
  destruct (handler_failure_is_contained Samples.failing_and_success_call
              (Samples.event_of_type "test.event") Samples.isolation_bus
              (Samples.fresh_runtime false) false (Samples.event_of_type "test.event") eq_refl)
    as (Hret & _ & _ & order & Hperm & _ & _ & Hworld & Hlines & _).
  split; [exact Hret|].
  exists order. exact (conj Hperm (conj Hworld Hlines)).
Defined.

(** The run of [test_handler_error_isolation]: the failing handler's line is
    printed, the other handler has run after it, and [emit] returns. *)
Example isolation_run :
  emit Samples.failing_and_success_call (Samples.event_of_type "test.event")
    Samples.isolation_bus (Samples.fresh_runtime false)
  = (record_history (Samples.event_of_type "test.event") Samples.isolation_bus,
     {| world := true;
        stdout := ["Event handler error for test.event: Handler error"];
        invoked := [(2%positive, Samples.event_of_type "test.event", Some "Handler error");
                    (1%positive, Samples.event_of_type "test.event", None)] |},
     Py.Return tt).
Proof. vm_compute. reflexivity. Qed.


(** What the specification of dispatch gives for the two handlers, run with
    the failing one first: the second has run, one line is printed. *)
Example handlers_run_isolation :
  spec_handlers_run Samples.failing_and_success_call [2%positive; 1%positive]
    (Samples.event_of_type "test.event") false
  = (true, ["Event handler error for test.event: Handler error"]).
Proof. vm_compute. reflexivity. Qed.

(** C8, as the claim states it, fails: handler 1 is registered twice under
    [a], the middleware of the bus raises, and an event of type [a] is
    emitted, with handlers that count their calls. The type matches the
    pattern, and [emit] raises with the count still at 0: the handler was
    not called once but not at all. *)
Lemma failing_middleware_skips_handler :
  _matches_pattern (type (Samples.event_of_type "a")) "a" = true /\
  elements (matching_handlers Samples.twice_registered_failing_bus "a") = [1%positive] /\
  emit Samples.counting_call (Samples.event_of_type "a")
    Samples.twice_registered_failing_bus (Samples.fresh_runtime 0%nat)
  = (record_history (Samples.event_of_type "a") Samples.twice_registered_failing_bus,
     {| world := 0%nat; stdout := []; invoked := [] |},
     Py.Raise "boom").
Proof. vm_compute. done. Qed.

Lemma on_twice_is_on_once_witness :
  _matches_pattern (type (Samples.event_of_type "a.b")) "a.*" = true /\
  apply_middleware (_middleware (W:=nat) __init__) (Samples.event_of_type "a.b")
    (world (Samples.fresh_runtime 0%nat)) = (0%nat, Py.Return (Samples.event_of_type "a.b")) /\
  count_occ Pos.eq_dec
    (called_handlers
       (calls_of_emit Samples.counting_call (Samples.event_of_type "a.b")
          (on "a.*" 1%positive (on "a.*" 1%positive __init__)) (Samples.fresh_runtime 0%nat)))
    1%positive = 1%nat /\
  exists before after,
    before ++ 1%positive :: after
      ≡ₚ elements (matching_handlers (on "a.*" 1%positive (W:=nat) __init__) "a.b") /\
    (1%positive ∉ before) /\ (1%positive ∉ after) /\
    world (emit Samples.counting_call (Samples.event_of_type "a.b")
             (on "a.*" 1%positive (on "a.*" 1%positive __init__))
             (Samples.fresh_runtime 0%nat)).1.2 =
      (spec_handlers_run Samples.counting_call (before ++ 1%positive :: after)
         (Samples.event_of_type "a.b") 0%nat).1.
Proof.
  split; [reflexivity|]. split; [reflexivity|].
  destruct (proj2 (on_twice_is_on_once Samples.counting_call "a.*" 1%positive __init__)
              (Samples.event_of_type "a.b") (Samples.fresh_runtime 0%nat) 0%nat
              (Samples.event_of_type "a.b") eq_refl eq_refl)
    as (Hcount & before & after & Hperm & Hbefore & Hafter & Hworld & _).
  split; [exact Hcount|].
  exists before, after. exact (conj Hperm (conj Hbefore (conj Hafter Hworld))).
Defined.

(** The emission of the witness: the one registered handler has been called
    once. *)
Example on_twice_run :
  world (emit Samples.counting_call (Samples.event_of_type "a.b")
           (on "a.*" 1%positive (on "a.*" 1%positive __init__))
           (Samples.fresh_runtime 0%nat)).1.2 = 1%nat.
Proof. vm_compute. reflexivity. Qed.

(** *** History *)

Section History.

Context {W : Type}.
Variable call : EventHandler -> Event -> W -> W * option string.

Lemma emit_bus (event : Event) (bus : EventBus) (rt : Runtime (W:=W)) :
  (emit call event bus rt).1.1 = record_history event bus.
Proof.
  unfold emit.
  destruct (apply_middleware _ event (world rt)) as [w [processed_event|e]]; [|done].
  by destruct (decide _).
Qed.

Lemma last_n_length {A : Type} (n : nat) (l : list A) : length (last_n n l) <= n.
Proof. unfold last_n. rewrite length_drop. lia. Qed.

Lemma last_n_snoc {A : Type} (n : nat) (log : list A) (e : A) :
  (if (n <? length (last_n n log ++ [e]))%nat
   then drop 1 (last_n n log ++ [e])
   else last_n n log ++ [e])
  = last_n n (log ++ [e]).
Proof.
  unfold last_n. rewrite !length_app, length_drop. simpl.
  destruct (Nat.ltb_spec n (length log - (length log - n) + 1)) as [Hover|Hfits].
  - rewrite <- (drop_app_le log [e]) by lia. rewrite drop_drop. f_equal. lia.
  - replace (length log - n) with 0%nat by lia.
    replace (length log + 1 - n) with 0%nat by lia. done.
Qed.

Lemma record_history_last_n (event : Event) (bus : EventBus (W:=W)) (log : list Event) :
  _history bus = last_n (_max_history bus) log ->
  _history (record_history event bus) = last_n (_max_history bus) (log ++ [event]).
Proof. intros Hlog. unfold record_history. simpl. rewrite Hlog. apply last_n_snoc. Qed.

Lemma step_max_history (st : EventBus * Runtime) (op : BusOp (W:=W)) :
  _max_history (step call st op).1 = _max_history st.1.
Proof.
  destruct st as [bus rt]. destruct op; simpl; try done.
  - unfold off. by destruct (_handlers bus !! event_type).
  - by rewrite emit_bus.
Qed.

Lemma step_history (st : EventBus * Runtime) (op : BusOp (W:=W)) (log : list Event) :
  _history st.1 = last_n (_max_history st.1) log ->
  _history (step call st op).1 =
    last_n (_max_history st.1)
      match op with
      | OpEmit event => log ++ [event]
      | OpClearHistory => []
      | _ => log
      end.
Proof.
  destruct st as [bus rt]. intros Hlog. destruct op; simpl in *; try done.
  - unfold off. by destruct (_handlers bus !! event_type).
  - rewrite emit_bus. by apply record_history_last_n.
Qed.

Lemma run_history (ops : list BusOp) (bus0 : EventBus) (rt0 : Runtime (W:=W)) :
  _history bus0 = [] ->
  _max_history (run call ops (bus0, rt0)).1 = _max_history bus0 /\
  _history (run call ops (bus0, rt0)).1 =
    last_n (_max_history bus0) (emitted_since_clear ops).
Proof.
  intros Hempty. induction ops as [|op ops [IHmax IHhist]] using rev_ind.
  - done.
  - unfold run, emitted_since_clear in *. rewrite !foldl_snoc.
    rewrite step_max_history, IHmax. split; [done|].
    rewrite <- IHmax in IHhist.
    rewrite (step_history _ op _ IHhist), IHmax. done.
Qed.

(** C7. Whatever operations a new bus has gone through, its history is the
    last 1000 of the events emitted since it was last cleared, oldest
    first: it never holds more than 1000 events, keeps them in the order
    they were emitted, and loses the oldest one when an append goes over
    the bound. Every operation keeps a history within its bound, whatever
    the bound is. *)
Theorem history_is_last_emitted (ops : list BusOp) (rt0 : Runtime (W:=W)) :
  (_max_history (run call ops (__init__, rt0)).1 = 1000%nat /\
   length (_history (run call ops (__init__, rt0)).1) <= 1000 /\
   _history (run call ops (__init__, rt0)).1 = last_n 1000 (emitted_since_clear ops)) /\
  (forall bus rt op,
     length (_history bus) <= _max_history bus ->
     length (_history (step call (bus, rt) op).1)
       <= _max_history (step call (bus, rt) op).1) /\
  (forall bus rt event,
     _history (emit call event bus rt).1.1 =
       if (length (_history bus) <? _max_history bus)%nat
       then _history bus ++ [event]
       else drop 1 (_history bus ++ [event])).
Proof.
  split; [|split].
  - destruct (run_history ops __init__ rt0 eq_refl) as [Hmax Hhist].
    split; [exact Hmax|]. split; [|exact Hhist].
    rewrite Hhist. apply last_n_length.
  - intros bus rt op Hbound. rewrite step_max_history. simpl.
    destruct op; simpl; try done.
    + unfold off. by destruct (_handlers bus !! event_type).
    + rewrite emit_bus. unfold record_history. simpl.
      rewrite length_app. simpl.
      destruct (Nat.ltb_spec (_max_history bus) (length (_history bus) + 1)).
      * rewrite length_drop, length_app. simpl. lia.
      * rewrite length_app. simpl. lia.
    + lia.
  - intros bus rt event. rewrite emit_bus. unfold record_history. simpl.
    rewrite length_app. simpl.
    destruct (Nat.ltb_spec (_max_history bus) (length (_history bus) + 1)),
             (Nat.ltb_spec (length (_history bus)) (_max_history bus)); try done; lia.
Qed.

End History.

End EventsSpec.

(** ** Properties of state.py *)

Module StateSpec.
Import State.

(** The check of [FileStateBackend.set] on a version one above the stored
    one. *)
Lemma version_check_passes (stored : Z) : (stored =? stored + 1 - 1)%Z = true.
Proof. apply Z.eqb_eq. lia. Qed.

Lemma get_written (k : string) (state : State.State) (base_dir : gmap string file_content) :
  FileStateBackend.get k (<[FileStateBackend._file_path k := FileStateBackend.dumps state]> base_dir)
  = Py.Return (Some state).
Proof.
  unfold FileStateBackend.get. rewrite lookup_insert_eq. by destruct state.
Qed.

(** C2, as the claim states it, fails: nothing is stored for the key [k],
    the record declares version 5, which is not one more than 0, and [set]
    writes it and returns [True]. *)
Lemma set_accepts_first_write_at_any_version :
  FileStateBackend.get (key Samples.first_write_at_5) ∅ = Py.Return None /\
  (version Samples.first_write_at_5 =? 0 + 1)%Z = false /\
  FileStateBackend.set Samples.first_write_at_5 ∅
    = Py.Return ({[ "k.json" := FileStateBackend.dumps Samples.first_write_at_5 ]}, true).
Proof. vm_compute. done. Qed.

(** C2, amended. [set] returns [False], and writes nothing, whenever a
    record is stored for the key and the declared version is not exactly
    one more than the stored one; with the declared version one more than
    the stored one it writes and returns [True]; and when [get] finds no
    record for the key it writes and returns [True] whatever version is
    declared. When [get] raises, [set] raises the same exception. *)
Theorem set_checks_version_of_stored_record (state : State.State) (base_dir : gmap string file_content) :
  (forall existing,
     FileStateBackend.get (key state) base_dir = Py.Return (Some existing) ->
     version state <> (version existing + 1)%Z ->
     FileStateBackend.set state base_dir = Py.Return (base_dir, false)) /\
  (forall existing,
     FileStateBackend.get (key state) base_dir = Py.Return (Some existing) ->
     version state = (version existing + 1)%Z ->
     FileStateBackend.set state base_dir =
       Py.Return
         (<[FileStateBackend._file_path (key state) := FileStateBackend.dumps state]> base_dir,
          true)) /\
  (FileStateBackend.get (key state) base_dir = Py.Return None ->
   FileStateBackend.set state base_dir =
     Py.Return
       (<[FileStateBackend._file_path (key state) := FileStateBackend.dumps state]> base_dir,
        true)) /\
  (forall e,
     FileStateBackend.get (key state) base_dir = Py.Raise e ->
     FileStateBackend.set state base_dir = Py.Raise e).
Proof.
  unfold FileStateBackend.set. split_and!.
  - intros existing -> Hne.
    destruct (Z.eqb_spec (version existing) (version state - 1)); [lia|done].
  - intros existing -> Heq.
    destruct (Z.eqb_spec (version existing) (version state - 1)); [done|lia].
  - by intros ->.
  - by intros e ->.
Qed.

Lemma set_checks_version_of_stored_record_witness :
  FileStateBackend.get "k" Samples.tagged_dir = Py.Return (Some Samples.tagged_record) /\
  (5 <> version Samples.tagged_record + 1)%Z /\
  FileStateBackend.set Samples.first_write_at_5 Samples.tagged_dir
    = Py.Return (Samples.tagged_dir, false).
Proof.
  split; [reflexivity|]. split; [done|].
  exact (proj1 (set_checks_version_of_stored_record Samples.first_write_at_5 Samples.tagged_dir)
           Samples.tagged_record eq_refl ltac:(done)).
Defined.

(** C6. [update(key, value, version=N)] on the file store returns [False]
    and leaves the directory as it was when no record is stored for the key
    or the stored version is not [N]; otherwise it returns [True] and the
    record then stored for the key has the new value and version [N + 1]. *)
Theorem update_with_expected_version (k : string) (v : Py.json) (N : Z) (base_dir : gmap string file_content) :
  (FileStateBackend.get k base_dir = Py.Return None ->
   StateManager.update k v (Some N) base_dir = Py.Return (base_dir, false)) /\
  (forall existing,
     FileStateBackend.get k base_dir = Py.Return (Some existing) ->
     version existing <> N ->
     StateManager.update k v (Some N) base_dir = Py.Return (base_dir, false)) /\
  (forall existing,
     FileStateBackend.get k base_dir = Py.Return (Some existing) ->
     version existing = N ->
     StateManager.update k v (Some N) base_dir =
       Py.Return
         (<[FileStateBackend._file_path k :=
              FileStateBackend.dumps
                {| key := k; value := v; version := N + 1; metadata := metadata existing |}]>
            base_dir,
          true) /\
     FileStateBackend.get k
       (<[FileStateBackend._file_path k :=
            FileStateBackend.dumps
              {| key := k; value := v; version := N + 1; metadata := metadata existing |}]>
          base_dir)
       = Py.Return
           (Some {| key := k; value := v; version := N + 1; metadata := metadata existing |})).
Proof.
  unfold StateManager.update. simpl. split_and!.
  - by intros ->.
  - intros existing -> Hne.
    by destruct (Z.eqb_spec (version existing) N).
  - intros existing Hget <-. rewrite Hget, Z.eqb_refl. simpl.
    unfold FileStateBackend.set. simpl. rewrite Hget.
    rewrite version_check_passes. simpl. split; [done|]. apply get_written.
Qed.

Lemma update_with_expected_version_witness :
  FileStateBackend.get "k" Samples.tagged_dir = Py.Return (Some Samples.tagged_record) /\
  version Samples.tagged_record = 3%Z /\
  StateManager.update "k" (Py.JInt 2) (Some 3%Z) Samples.tagged_dir =
    Py.Return
      (<[FileStateBackend._file_path "k" :=
           FileStateBackend.dumps
             {| key := "k"; value := Py.JInt 2; version := 3 + 1;
                metadata := metadata Samples.tagged_record |}]>
         Samples.tagged_dir,
       true) /\
  FileStateBackend.get "k"
    (<[FileStateBackend._file_path "k" :=
         FileStateBackend.dumps
           {| key := "k"; value := Py.JInt 2; version := 3 + 1;
              metadata := metadata Samples.tagged_record |}]>
       Samples.tagged_dir)
    = Py.Return
        (Some {| key := "k"; value := Py.JInt 2; version := 3 + 1;
                 metadata := metadata Samples.tagged_record |}).
Proof.
  split; [reflexivity|]. split; [reflexivity|].
  exact (proj2 (proj2 (update_with_expected_version "k" (Py.JInt 2) 3 Samples.tagged_dir))
           Samples.tagged_record eq_refl eq_refl).
Defined.

(** C9, as the claim states it, fails: the file of the key [k] exists and
    holds bytes that are not text, the most undecodable of files. [get]
    does not report the key absent: it raises [UnicodeDecodeError], and so
    do [exists] and [set], while [delete] returns [True]. *)
Lemma undecodable_bytes_make_get_raise :
  Samples.binary_dir !! FileStateBackend._file_path "k" = Some NotText /\
  FileStateBackend.get "k" Samples.binary_dir = Py.Raise "UnicodeDecodeError" /\
  StateManager.exists_ "k" Samples.binary_dir = Py.Raise "UnicodeDecodeError" /\
  FileStateBackend.set Samples.first_write_at_5 Samples.binary_dir
    = Py.Raise "UnicodeDecodeError" /\
  (FileStateBackend.delete "k" Samples.binary_dir).2 = true.
Proof. vm_compute. done. Qed.

(** C9, amended. When the file of a key exists and holds text that is not
    JSON (a file cut off in the middle, say), or a JSON object without
    [key] or [value], [get] reports no record and the manager reports the
    key absent, [delete] returns [True], and [set] accepts a record for the
    key whatever version it declares. *)
Theorem unreadable_file_reads_absent_deletes_true (k : string) (content : file_content) (base_dir : gmap string file_content) :
  base_dir !! FileStateBackend._file_path k = Some content ->
  FileStateBackend.unreadable content ->
  FileStateBackend.get k base_dir = Py.Return None /\
  StateManager.exists_ k base_dir = Py.Return false /\
  (forall default_value,
     StateManager.get k default_value base_dir = Py.Return default_value) /\
  FileStateBackend.delete k base_dir
    = (base.delete (FileStateBackend._file_path k) base_dir, true) /\
  (StateManager.delete k base_dir).2 = true /\
  (forall state,
     key state = k ->
     FileStateBackend.set state base_dir =
       Py.Return
         (<[FileStateBackend._file_path k := FileStateBackend.dumps state]> base_dir, true)).
Proof.
  intros Hfile Hbad.
  assert (Hget : FileStateBackend.get k base_dir = Py.Return None).
  { unfold FileStateBackend.get. rewrite Hfile.
    destruct content as [| | |data]; try done.
    destruct Hbad as [-> | Hv]; [done|]. rewrite Hv. by destruct (doc_key data). }
  assert (Hdel : FileStateBackend.delete k base_dir
                 = (base.delete (FileStateBackend._file_path k) base_dir, true)).
  { unfold FileStateBackend.delete. by rewrite Hfile. }
  split; [done|].
  split; [unfold StateManager.exists_; simpl; by rewrite Hget|].
  split; [intros d; unfold StateManager.get; simpl; by rewrite Hget|].
  split; [done|].
  split; [unfold StateManager.delete; simpl; by rewrite Hdel|].
  intros state <-. unfold FileStateBackend.set. by rewrite Hget.
Qed.

Lemma unreadable_file_reads_absent_deletes_true_witness :
  Samples.torn_dir !! FileStateBackend._file_path "k" = Some Undecodable /\
  FileStateBackend.unreadable Undecodable /\
  FileStateBackend.get "k" Samples.torn_dir = Py.Return None /\
  StateManager.exists_ "k" Samples.torn_dir = Py.Return false /\
  (forall default_value,
     StateManager.get "k" default_value Samples.torn_dir = Py.Return default_value) /\
  FileStateBackend.delete "k" Samples.torn_dir
    = (base.delete (FileStateBackend._file_path "k") Samples.torn_dir, true) /\
  (StateManager.delete "k" Samples.torn_dir).2 = true /\
  (forall state,
     key state = "k" ->
     FileStateBackend.set state Samples.torn_dir =
       Py.Return
         (<[FileStateBackend._file_path "k" := FileStateBackend.dumps state]> Samples.torn_dir,
          true)).
Proof.
  split; [reflexivity|]. split; [exact I|].
  exact (unreadable_file_reads_absent_deletes_true "k" Undecodable Samples.torn_dir eq_refl I).
Defined.

(** What the manager's [set] writes when [get] returns for the key. *)
Lemma manager_set_writes (k : string) (v : Py.json) (m : option (list (string * Py.json))) (base_dir : gmap string file_content) (found : option State.State) :
  FileStateBackend.get k base_dir = Py.Return found ->
  exists state,
    key state = k /\ value state = v /\ metadata state = default [] m /\
    version state =
      match found with
      | Some existing => (version existing + 1)%Z
      | None => 1%Z
      end /\
    StateManager.set k v m base_dir =
      Py.Return (<[FileStateBackend._file_path k := FileStateBackend.dumps state]> base_dir).
Proof.
  intros Hget. unfold StateManager.set. simpl. rewrite Hget.
  unfold FileStateBackend.set. simpl. rewrite Hget.
  destruct found as [existing|].
  - exists {| key := k; value := v; version := version existing + 1;
              metadata := default [] m |}.
    simpl. split_and!; try done.
    by rewrite version_check_passes.
  - exists {| key := k; value := v; version := 1; metadata := default [] m |}.
    simpl. by split_and!.
Qed.

(** C10. For a key with a stored record, [update] called without an
    expected version, or with the stored version as the expected one,
    succeeds and stores a record carrying the metadata of the record it
    replaces (and so does every [update] that returns [True]), while [set]
    without a metadata argument stores a record with empty metadata. *)
Theorem update_keeps_metadata_set_drops_it (k : string) (v : Py.json) (existing : State.State) (base_dir : gmap string file_content) :
  FileStateBackend.get k base_dir = Py.Return (Some existing) ->
  (forall expected,
     expected = None \/ expected = Some (version existing) ->
     StateManager.update k v expected base_dir =
       Py.Return
         (<[FileStateBackend._file_path k :=
              FileStateBackend.dumps
                {| key := k; value := v; version := version existing + 1;
                   metadata := metadata existing |}]>
            base_dir,
          true)) /\
  FileStateBackend.get k
    (<[FileStateBackend._file_path k :=
         FileStateBackend.dumps
           {| key := k; value := v; version := version existing + 1;
              metadata := metadata existing |}]>
       base_dir)
    = Py.Return
        (Some {| key := k; value := v; version := version existing + 1;
                 metadata := metadata existing |}) /\
  (forall expected base_dir',
     StateManager.update k v expected base_dir = Py.Return (base_dir', true) ->
     FileStateBackend.get k base_dir'
       = Py.Return
           (Some {| key := k; value := v; version := version existing + 1;
                    metadata := metadata existing |})) /\
  StateManager.set k v None base_dir =
    Py.Return
      (<[FileStateBackend._file_path k :=
           FileStateBackend.dumps
             {| key := k; value := v; version := version existing + 1; metadata := [] |}]>
         base_dir) /\
  FileStateBackend.get k
    (<[FileStateBackend._file_path k :=
         FileStateBackend.dumps
           {| key := k; value := v; version := version existing + 1; metadata := [] |}]>
       base_dir)
    = Py.Return
        (Some {| key := k; value := v; version := version existing + 1; metadata := [] |}).
Proof.
  intros Hget.
  assert (Hwrite : FileStateBackend.set
                     {| key := k; value := v; version := version existing + 1;
                        metadata := metadata existing |} base_dir
                   = Py.Return
                       (<[FileStateBackend._file_path k :=
                            FileStateBackend.dumps
                              {| key := k; value := v; version := version existing + 1;
                                 metadata := metadata existing |}]>
                          base_dir,
                        true)).
  { unfold FileStateBackend.set. simpl. by rewrite Hget, version_check_passes. }
  split_and!.
  - intros expected [-> | ->]; unfold StateManager.update; simpl; rewrite Hget.
    + exact Hwrite.
    + rewrite Z.eqb_refl. exact Hwrite.
  - apply get_written.
  - intros expected base_dir'. unfold StateManager.update. simpl. rewrite Hget.
    destruct expected as [N|].
    + destruct (Z.eqb_spec (version existing) N) as [_|_]; simpl; [|done].
      rewrite Hwrite. intros [= <-]. apply get_written.
    + simpl. rewrite Hwrite. intros [= <-]. apply get_written.
  - destruct (manager_set_writes k v None base_dir (Some existing) Hget)
      as (state & Hk & Hv & Hm & Hver & ->).
    do 3 f_equal. destruct state; simpl in *. by subst.
  - apply get_written.
Qed.

Lemma update_keeps_metadata_set_drops_it_witness :
  FileStateBackend.get "k" Samples.tagged_dir = Py.Return (Some Samples.tagged_record) /\
  StateManager.update "k" (Py.JInt 2) (Some 3%Z) Samples.tagged_dir =
    Py.Return
      (<[FileStateBackend._file_path "k" :=
           FileStateBackend.dumps
             {| key := "k"; value := Py.JInt 2; version := version Samples.tagged_record + 1;
                metadata := metadata Samples.tagged_record |}]>
         Samples.tagged_dir,
       true) /\
  StateManager.update "k" (Py.JInt 2) None Samples.tagged_dir =
    Py.Return
      (<[FileStateBackend._file_path "k" :=
           FileStateBackend.dumps
             {| key := "k"; value := Py.JInt 2; version := version Samples.tagged_record + 1;
                metadata := metadata Samples.tagged_record |}]>
         Samples.tagged_dir,
       true) /\
  FileStateBackend.get "k"
    (<[FileStateBackend._file_path "k" :=
         FileStateBackend.dumps
           {| key := "k"; value := Py.JInt 2; version := version Samples.tagged_record + 1;
              metadata := metadata Samples.tagged_record |}]>
       Samples.tagged_dir)
    = Py.Return
        (Some {| key := "k"; value := Py.JInt 2; version := version Samples.tagged_record + 1;
                 metadata := metadata Samples.tagged_record |}) /\
  StateManager.set "k" (Py.JInt 2) None Samples.tagged_dir =
    Py.Return
      (<[FileStateBackend._file_path "k" :=
           FileStateBackend.dumps
             {| key := "k"; value := Py.JInt 2; version := version Samples.tagged_record + 1;
                metadata := [] |}]>
         Samples.tagged_dir).
Proof.
  split; [reflexivity|].
  destruct (update_keeps_metadata_set_drops_it "k" (Py.JInt 2) Samples.tagged_record
              Samples.tagged_dir eq_refl)
    as (Hupdate & Hread & _ & Hset & _).
  exact (conj (Hupdate (Some 3%Z) (or_intror eq_refl))
           (conj (Hupdate None (or_introl eq_refl)) (conj Hread Hset))).
Defined.

(** The update and the set of the witness: the tag of the stored record
    survives the update and is gone after the set. *)
Example metadata_run :
  StateManager.update "k" (Py.JInt 2) (Some 3%Z) Samples.tagged_dir =
    Py.Return
      ({[ "k.json" := FileStateBackend.dumps
            {| key := "k"; value := Py.JInt 2; version := 4;
               metadata := [("source", Py.JStr "webhook")] |} ]}, true) /\
  StateManager.set "k" (Py.JInt 2) None Samples.tagged_dir =
    Py.Return
      {[ "k.json" := FileStateBackend.dumps
           {| key := "k"; value := Py.JInt 2; version := 4; metadata := [] |} ]}.
Proof. vm_compute. done. Qed.

(** *** Listing *)

Lemma string_length_app (a b : string) :
  String.length (a ++ b)%string = (String.length a + String.length b)%nat.
Proof. induction a as [|c a IH]; simpl; [done|]. by rewrite IH. Qed.

Lemma rfind_app (ch : ascii) (a b : string) (i : nat) :
  Py.rfind ch b = Some i ->
  Py.rfind ch (a ++ b)%string = Some (String.length a + i)%nat.
Proof.
  intros Hb. induction a as [|c a IH]; simpl; [done|]. by rewrite IH.
Qed.

Lemma take_chars_app (a b : string) :
  Py.take_chars (String.length a) (a ++ b)%string = a.
Proof. induction a as [|c a IH]; simpl; [by destruct b|]. by rewrite IH. Qed.

Lemma stem_json (safe_key : string) :
  Py.stem (safe_key ++ ".json")%string = if safe_key =? "" then ".json" else safe_key.
Proof.
  unfold Py.stem. rewrite (rfind_app "." safe_key ".json" 0 eq_refl).
  rewrite string_length_app, Nat.add_0_r. simpl String.length.
  destruct safe_key as [|c rest]; [done|].
  replace (String.length (String c rest) <? String.length (String c rest) + 5 - 1)%nat
    with true by (symmetry; apply Nat.ltb_lt; lia).
  simpl (0 <? _)%nat. simpl andb. cbv iota.
  by rewrite take_chars_app.
Qed.

Lemma endswith_app (a suffix : string) : Py.endswith (a ++ suffix)%string suffix = true.
Proof.
  induction a as [|c a IH].
  - change ("" ++ suffix)%string with suffix.
    destruct suffix as [|c suffix].
    + reflexivity.
    + change (Py.endswith (String c suffix) (String c suffix))
        with ((String c suffix =? String c suffix) || Py.endswith suffix (String c suffix)).
      by rewrite String.eqb_refl.
  - change (Py.endswith (String c a ++ suffix)%string suffix)
      with ((String c (a ++ suffix) =? suffix) || Py.endswith (a ++ suffix)%string suffix).
    rewrite IH. apply orb_true_r.
Qed.

Lemma replace_absent (old new : ascii) (s : string) :
  Py.contains old s = false -> Py.replace old new s = s.
Proof.
  induction s as [|c s IH]; simpl; [done|].
  intros [Hc Hs]%orb_false_elim. by rewrite Hc, IH.
Qed.

Lemma filter_Permutation {A : Type} (f : A -> bool) (l k : list A) :
  l ≡ₚ k -> List.filter f l ≡ₚ List.filter f k.
Proof.
  induction 1 as [|x l k _ IH|x y l|l k m _ IH1 _ IH2]; simpl.
  - done.
  - destruct (f x); by rewrite IH.
  - destruct (f x), (f y); try done. apply perm_swap.
  - by rewrite IH1.
Qed.

(** Every file of a written store is one [set] wrote, and the files are
    those of the written keys. *)
Lemma written_files_dumped (writes : list (string * Py.json * option (list (string * Py.json)))) :
  (forall name content,
     StateManager.written writes !! name = Some content ->
     exists state, content = FileStateBackend.dumps state) /\
  (forall name,
     is_Some (StateManager.written writes !! name) <->
     exists k, k ∈ StateManager.written_keys writes /\ name = FileStateBackend._file_path k).
Proof.
  induction writes as [|[[k v] m] writes [IHdumped IHfiles]] using rev_ind.
  - unfold StateManager.written. simpl. split.
    + intros name content Hfile. by rewrite lookup_empty in Hfile.
    + intros name. rewrite lookup_empty. split.
      * by intros [? ?].
      * intros (k & Hk & _). by apply elem_of_nil in Hk.
  - unfold StateManager.written in *. rewrite foldl_snoc. simpl.
    set (before := foldl _ ∅ writes) in *.
    assert (Hget : exists found, FileStateBackend.get k before = Py.Return found).
    { unfold FileStateBackend.get.
      destruct (before !! FileStateBackend._file_path k) as [content|] eqn:Hfile; [|by eexists].
      destruct (IHdumped _ _ Hfile) as [state ->]. simpl. by eexists. }
    destruct Hget as [found Hget].
    destruct (manager_set_writes k v m before found Hget)
      as (state & _ & _ & _ & _ & ->).
    split.
    + intros name content.
      destruct (decide (FileStateBackend._file_path k = name)) as [<-|Hne].
      * rewrite lookup_insert_eq. intros [= <-]. by eexists.
      * rewrite lookup_insert_ne by done. apply IHdumped.
    + intros name. unfold StateManager.written_keys. rewrite map_app. simpl.
      rewrite lookup_insert_is_Some, IHfiles. split.
      * intros [<- | [_ (k' & Hk' & ->)]].
        -- exists k. split; [|done]. apply elem_of_app. right.
           by apply list_elem_of_singleton.
        -- exists k'. split; [|done]. apply elem_of_app. by left.
      * intros (k' & [Hk' | ->%list_elem_of_singleton]%elem_of_app & ->).
        -- destruct (decide (FileStateBackend._file_path k = FileStateBackend._file_path k'));
             [by left | right; eauto].
        -- by left.
Qed.

Lemma written_files (writes : list (string * Py.json * option (list (string * Py.json)))) (name : string) :
  is_Some (StateManager.written writes !! name) <->
  exists k, k ∈ StateManager.written_keys writes /\ name = FileStateBackend._file_path k.
Proof. apply written_files_dumped. Qed.

Lemma elem_of_glob_json (base_dir : gmap string file_content) (name : string) :
  name ∈ FileStateBackend.glob_json base_dir <->
  is_Some (base_dir !! name) /\ Py.endswith name ".json" = true.
Proof.
  unfold FileStateBackend.glob_json.
  rewrite list_elem_of_In, filter_In, <- list_elem_of_In.
  change (map fst (map_to_list base_dir)) with ((map_to_list base_dir).*1).
  rewrite list_elem_of_fmap. split.
  - intros [([n c] & -> & Hin) Hend]. split; [|done].
    apply elem_of_map_to_list in Hin. by exists c.
  - intros [[c Hc] Hend]. split; [|done].
    exists (name, c). split; [done|]. by apply elem_of_map_to_list.
Qed.

Lemma glob_json_Permutation (d1 d2 : gmap string file_content) :
  (forall name, is_Some (d1 !! name) <-> is_Some (d2 !! name)) ->
  FileStateBackend.glob_json d1 ≡ₚ FileStateBackend.glob_json d2.
Proof.
  intros Hsame. unfold FileStateBackend.glob_json. apply filter_Permutation.
  apply NoDup_Permutation; [apply NoDup_fst_map_to_list..|].
  intros name.
  change (map fst (map_to_list d1)) with ((map_to_list d1).*1).
  change (map fst (map_to_list d2)) with ((map_to_list d2).*1).
  rewrite !list_elem_of_fmap. split.
  - intros ([n c] & -> & Hin%elem_of_map_to_list).
    destruct (proj1 (Hsame n) (ex_intro _ c Hin)) as [c' Hc'].
    exists (n, c'). split; [done|]. by apply elem_of_map_to_list.
  - intros ([n c] & -> & Hin%elem_of_map_to_list).
    destruct (proj2 (Hsame n) (ex_intro _ c Hin)) as [c' Hc'].
    exists (n, c'). split; [done|]. by apply elem_of_map_to_list.
Qed.

Lemma safe_key_nonempty (k : string) : k <> "" -> FileStateBackend.safe_key k <> "".
Proof. by destruct k. Qed.

Lemma stem_file_path (k : string) :
  k <> "" -> Py.stem (FileStateBackend._file_path k) = FileStateBackend.safe_key k.
Proof.
  intros Hk%safe_key_nonempty. unfold FileStateBackend._file_path. rewrite stem_json.
  by destruct (FileStateBackend.safe_key k).
Qed.

(** C4, as the claim states it, fails: after one write under the key [a/b]
    the listing holds [a_b], not the key, and the prefix [a/], with which
    the key starts, lists nothing; and after one write under the empty key
    the listing holds the file name [.json]. *)
Lemma list_reports_sanitized_key :
  (StateManager.written_keys Samples.slash_writes = ["a/b"] /\
   StateManager.list_ "" (StateManager.written Samples.slash_writes) = ["a_b"] /\
   Py.startswith "a/b" "a/" = true /\
   StateManager.list_ "a/" (StateManager.written Samples.slash_writes) = []) /\
  (StateManager.written_keys Samples.empty_key_writes = [""] /\
   StateManager.list_ "" (StateManager.written Samples.empty_key_writes) = [".json"]).
Proof. vm_compute. done. Qed.

(** C4, amended. After any sequence of writes of non-empty keys through the
    manager on an empty file store, [list(prefix)] holds, each once, exactly
    the sanitized forms of the written keys that start with the prefix,
    where the sanitized form of a key is the key with each slash and
    backslash replaced by an underscore. The empty prefix keeps every name,
    two write sequences over the same keys list the same names up to order,
    and a key without slash or backslash is its own sanitized form. *)
Theorem list_reports_safe_keys (writes : list (string * Py.json * option (list (string * Py.json)))) (prefix : string) :
  (forall k, k ∈ StateManager.written_keys writes -> k <> "") ->
  (forall x,
     x ∈ StateManager.list_ prefix (StateManager.written writes) <->
     exists k, k ∈ StateManager.written_keys writes /\
               x = FileStateBackend.safe_key k /\
               Py.startswith x prefix = true) /\
  NoDup (StateManager.list_ prefix (StateManager.written writes)) /\
  (forall x,
     x ∈ StateManager.list_ "" (StateManager.written writes) <->
     exists k, k ∈ StateManager.written_keys writes /\ x = FileStateBackend.safe_key k) /\
  (forall writes',
     (forall k, k ∈ StateManager.written_keys writes <-> k ∈ StateManager.written_keys writes') ->
     StateManager.list_ prefix (StateManager.written writes)
       ≡ₚ StateManager.list_ prefix (StateManager.written writes')) /\
  (forall k,
     Py.contains "/" k = false -> Py.contains "\" k = false ->
     FileStateBackend.safe_key k = k).
Proof.
  intros Hnonempty.
  assert (Hmem : forall pre x,
            x ∈ StateManager.list_ pre (StateManager.written writes) <->
            exists k, k ∈ StateManager.written_keys writes /\
                      x = FileStateBackend.safe_key k /\
                      Py.startswith x pre = true).
  { intros pre x. unfold StateManager.list_. simpl. unfold FileStateBackend.list_keys.
    rewrite list_elem_of_In, filter_In, <- list_elem_of_In.
    change (map Py.stem ?l) with (Py.stem <$> l).
    rewrite list_elem_of_fmap. split.
    - intros [(name & -> & [Hname _]%elem_of_glob_json) Hprefix].
      apply written_files in Hname as (k & Hk & ->).
      rewrite stem_file_path in * by auto. by exists k.
    - intros (k & Hk & -> & Hprefix). split; [|done].
      exists (FileStateBackend._file_path k). split; [by rewrite stem_file_path by auto|].
      apply elem_of_glob_json. split.
      + apply written_files. by exists k.
      + apply endswith_app. }
  split_and!.
  - apply Hmem.
  - unfold StateManager.list_. simpl. unfold FileStateBackend.list_keys.
    apply NoDup_ListNoDup, List.NoDup_filter, NoDup_ListNoDup.
    change (map Py.stem ?l) with (Py.stem <$> l).
    apply NoDup_fmap_2_strong.
    + intros x y [Hx _]%elem_of_glob_json [Hy _]%elem_of_glob_json.
      apply written_files in Hx as (kx & Hkx & ->).
      apply written_files in Hy as (ky & Hky & ->).
      rewrite !stem_file_path by auto.
      unfold FileStateBackend._file_path. by intros ->.
    + unfold FileStateBackend.glob_json.
      apply NoDup_ListNoDup, List.NoDup_filter, NoDup_ListNoDup, NoDup_fst_map_to_list.
  - intros x. rewrite Hmem. split.
    + intros (k & Hk & -> & _). by exists k.
    + intros (k & Hk & ->). exists k. split_and!; try done. by destruct (FileStateBackend.safe_key k).
  - intros writes' Hkeys. unfold StateManager.list_. simpl.
    unfold FileStateBackend.list_keys.
    apply filter_Permutation, Permutation_map, glob_json_Permutation.
    intros name. rewrite !written_files. split.
    + intros (k & Hk & ->). exists k. split; [by apply Hkeys|done].
    + intros (k & Hk & ->). exists k. split; [by apply Hkeys|done].
  - intros k Hslash Hback. unfold FileStateBackend.safe_key.
    by rewrite (replace_absent "/" "_" k Hslash), (replace_absent "\" "_" k Hback).
Qed.

Lemma list_reports_safe_keys_witness :
  (forall k, k ∈ StateManager.written_keys Samples.plain_writes -> k <> "") /\
  (forall x,
     x ∈ StateManager.list_ "pr:" (StateManager.written Samples.plain_writes) <->
     exists k, k ∈ StateManager.written_keys Samples.plain_writes /\
               x = FileStateBackend.safe_key k /\
               Py.startswith x "pr:" = true) /\
  NoDup (StateManager.list_ "pr:" (StateManager.written Samples.plain_writes)).
Proof.
  assert (Hkeys : forall k, k ∈ StateManager.written_keys Samples.plain_writes -> k <> "").
  { intros k Hk. simpl in Hk. rewrite !elem_of_cons in Hk.
    destruct Hk as [-> | [-> | [-> | Hk]]]; [done..|by apply elem_of_nil in Hk]. }
  split; [exact Hkeys|].
  pose proof (list_reports_safe_keys Samples.plain_writes "pr:" Hkeys) as (H1 & H2 & _).
  exact (conj H1 H2).
Defined.

(** The listing of the three sample writes under the prefix [pr:]. *)
Example list_prefix_run :
  StateManager.list_ "pr:" (StateManager.written Samples.plain_writes) = ["pr:1"; "pr:2"].
Proof. vm_compute. reflexivity. Qed.

End StateSpec.

(** ** Further properties of events.py *)

Module EventsMore.
Import Events.

(** *** Patterns without a star *)

Lemma parts_agree_starless (es ps : list string) :
  length es = length ps ->
  (forall seg, seg ∈ ps -> seg <> "*") ->
  parts_agree es ps = true <-> es = ps.
Proof.
  revert ps. induction es as [|e es IH]; intros [|p ps] Hlen Hstar; simpl in *; try discriminate.
  - done.
  - injection Hlen as Hlen.
    assert (Hp : p <> "*") by (apply Hstar; by left).
    assert (Hps : forall seg, seg ∈ ps -> seg <> "*") by (intros seg Hseg; apply Hstar; by right).
    destruct (String.eqb_spec p "*") as [?|_]; [done|]. simpl.
    destruct (String.eqb_spec p e) as [->|Hpe]; simpl.
    + rewrite (IH ps Hlen Hps). split; [by intros ->|by intros [= ->]].
    + split; [done|]. intros [= -> ->]. done.
Qed.

Lemma split_inj (sep : ascii) (s t : string) : Py.split sep s = Py.split sep t -> s = t.
Proof.
  intros Heq. rewrite <- (EventsSpec.split_join sep s), <- (EventsSpec.split_join sep t).
  by rewrite Heq.
Qed.

(** X1. A pattern none of whose segments is the star matches one event type
    only, the pattern itself. *)
Theorem starless_pattern_matches_itself_only (t p : string) :
  (forall seg, seg ∈ Py.split "." p -> seg <> "*") ->
  _matches_pattern t p = true <-> t = p.
Proof.
  intros Hstar. unfold _matches_pattern.
  destruct (String.eqb_spec p "*") as [->|_].
  - exfalso. apply (Hstar "*"); [|done]. simpl. by left.
  - destruct (Nat.eqb_spec (length (Py.split "." t)) (length (Py.split "." p))) as [Hlen|Hlen]; simpl.
    + rewrite (parts_agree_starless _ _ Hlen Hstar). split; [apply split_inj|by intros ->].
    + split; [done|]. intros ->. done.
Qed.

Lemma starless_pattern_matches_itself_only_witness :
  (forall seg, seg ∈ Py.split "." "github.pr.created" -> seg <> "*") /\
  (_matches_pattern "github.pr.created" "github.pr.created" = true <->
   "github.pr.created" = "github.pr.created").
Proof.
  assert (Hstar : forall seg, seg ∈ Py.split "." "github.pr.created" -> seg <> "*").
  { intros seg Hseg. apply list_elem_of_In in Hseg. simpl in Hseg.
    destruct Hseg as [<- | [<- | [<- | []]]]; discriminate. }
  split; [exact Hstar|].
  exact (starless_pattern_matches_itself_only "github.pr.created" "github.pr.created" Hstar).
Defined.

(** *** Registration *)

Section Registration.

Context {W : Type}.
Variable call : EventHandler -> Event -> W -> W * option string.

(** X2. [on] adds the handler to the dispatch of the types its pattern matches,
    and changes nothing else: a handler is dispatched for a type after
    [on p h] exactly when it was before, or it is [h] and [p] matches. *)
Theorem on_registers_under_pattern (p : string) (h : EventHandler) (bus : EventBus (W:=W)) (t : string) (h' : EventHandler) :
  h' ∈ matching_handlers (on p h bus) t <->
  h' ∈ matching_handlers bus t \/ (h' = h /\ _matches_pattern t p = true).
Proof.
  rewrite !EventsSpec.matching_handlers_spec. unfold on. simpl. split.
  - intros (q & hs & Hq & Hm & Hin).
    destruct (decide (p = q)) as [<-|Hne].
    + rewrite lookup_insert_eq in Hq. injection Hq as <-.
      apply elem_of_union in Hin as [Hin | ->%elem_of_singleton]; [|by right].
      left. destruct (_handlers bus !! p) as [hs|] eqn:Hp; simpl in Hin.
      * by exists p, hs.
      * by apply not_elem_of_empty in Hin.
    + rewrite lookup_insert_ne in Hq by done. left. by exists q, hs.
  - intros [(q & hs & Hq & Hm & Hin) | [-> Hm]].
    + destruct (decide (p = q)) as [<-|Hne].
      * eexists p, _. rewrite lookup_insert_eq. split; [done|]. split; [done|].
        rewrite Hq. simpl. apply elem_of_union. by left.
      * exists q, hs. by rewrite lookup_insert_ne.
    + eexists p, _. rewrite lookup_insert_eq. split; [done|]. split; [done|].
      apply elem_of_union. right. by apply elem_of_singleton.
Qed.

(** X3. [off] answers whether the pattern has ever been registered, not whether
    the handler was: it returns [True] exactly when the pattern is a key of
    the registry, leaves an unknown pattern's bus as it is, keeps the key
    (a second [off] answers the same), and takes the handler out of the
    dispatch through that pattern only. *)
Theorem off_unregisters_under_pattern (p : string) (h : EventHandler) (bus : EventBus (W:=W)) :
  ((off p h bus).2 = true <-> is_Some (_handlers bus !! p)) /\
  (_handlers bus !! p = None -> (off p h bus).1 = bus) /\
  (off p h (off p h bus).1).2 = (off p h bus).2 /\
  (forall t h',
     h' ∈ matching_handlers (off p h bus).1 t <->
     exists q hs, _handlers bus !! q = Some hs /\ _matches_pattern t q = true /\
                  h' ∈ hs /\ ~ (q = p /\ h' = h)).
Proof.
  unfold off. destruct (_handlers bus !! p) as [registered|] eqn:Hp; simpl.
  - split_and!.
    + split; [by eexists|done].
    + done.
    + by rewrite lookup_insert_eq.
    + intros t h'. rewrite EventsSpec.matching_handlers_spec. simpl. split.
      * intros (q & hs & Hq & Hm & Hin).
        destruct (decide (p = q)) as [<-|Hne].
        -- rewrite lookup_insert_eq in Hq. injection Hq as <-.
           apply elem_of_difference in Hin as [Hin Hnot].
           exists p, registered. split_and!; try done.
           intros [_ ->]. apply Hnot. by apply elem_of_singleton.
        -- rewrite lookup_insert_ne in Hq by done.
           exists q, hs. split_and!; try done. intros [-> _]. done.
      * intros (q & hs & Hq & Hm & Hin & Hnot).
        destruct (decide (p = q)) as [<-|Hne].
        -- eexists p, _. rewrite lookup_insert_eq. split; [done|]. split; [done|].
           rewrite Hp in Hq. injection Hq as <-.
           apply elem_of_difference. split; [done|].
           intros ->%elem_of_singleton. by apply Hnot.
        -- exists q, hs. by rewrite lookup_insert_ne.
  - split_and!.
    + split; [done|]. by intros [? ?].
    + done.
    + by rewrite Hp.
    + intros t h'. rewrite EventsSpec.matching_handlers_spec. split.
      * intros (q & hs & Hq & Hm & Hin). exists q, hs. split_and!; try done.
        intros [-> _]. congruence.
      * intros (q & hs & Hq & Hm & Hin & _). by exists q, hs.
Qed.

(** *** Counting *)

Lemma total_insert_fresh (m : gmap string (gset EventHandler)) (p : string) (hs : gset EventHandler) :
  m !! p = None ->
  map_fold (fun _ handlers n => (n + size handlers)%nat) 0%nat (<[p := hs]> m)
  = (map_fold (fun _ handlers n => (n + size handlers)%nat) 0%nat m + size hs)%nat.
Proof.
  intros Hp. apply (map_fold_insert_L (fun _ handlers n => (n + size handlers)%nat)); [|done].
  intros. lia.
Qed.

Lemma total_insert (m : gmap string (gset EventHandler)) (p : string) (hs : gset EventHandler) :
  (map_fold (fun _ handlers n => (n + size handlers)%nat) 0%nat (<[p := hs]> m)
   + size (default ∅ (m !! p)))%nat
  = (map_fold (fun _ handlers n => (n + size handlers)%nat) 0%nat m + size hs)%nat.
Proof.
  destruct (m !! p) as [old|] eqn:Hp; cbn [from_option Datatypes.id].
  - rewrite <- (insert_delete_eq m p hs).
    rewrite <- (insert_id m p old Hp) at 2. rewrite <- (insert_delete_eq m p old).
    rewrite !total_insert_fresh by apply lookup_delete_eq. lia.
  - rewrite total_insert_fresh by done. rewrite size_empty. lia.
Qed.

Lemma size_add (hs : gset EventHandler) (h : EventHandler) :
  size (hs ∪ {[h]}) = if decide (h ∈ hs) then size hs else S (size hs).
Proof.
  destruct (decide (h ∈ hs)) as [Hin|Hnot].
  - f_equal. apply set_eq. intros x. rewrite elem_of_union, elem_of_singleton.
    split; [intros [?| ->]; done | by left].
  - rewrite size_union.
    + rewrite size_singleton. lia.
    + intros x Hx ->%elem_of_singleton. done.
Qed.

(** X4. Registering a handler under a pattern raises the count of that pattern
    and the total count by one when the handler is new to the pattern, and
    leaves both as they were when it is registered there already. *)
Theorem handler_count_after_on (p : string) (h : EventHandler) (bus : EventBus (W:=W)) :
  p <> "" ->
  handler_count (Some p) (on p h bus)
    = (if decide (h ∈ default ∅ (_handlers bus !! p))
       then handler_count (Some p) bus
       else S (handler_count (Some p) bus)) /\
  handler_count None (on p h bus)
    = (if decide (h ∈ default ∅ (_handlers bus !! p))
       then handler_count None bus
       else S (handler_count None bus)).
Proof.
  intros Hp. unfold handler_count, on. simpl.
  destruct (String.eqb_spec p "") as [?|_]; [done|].
  rewrite lookup_insert_eq. simpl.
  pose proof (total_insert (_handlers bus) p (default ∅ (_handlers bus !! p) ∪ {[h]})) as Htotal.
  rewrite size_add in *.
  destruct (decide (h ∈ default ∅ (_handlers bus !! p))); split; try done; lia.
Qed.

End Registration.

Lemma handler_count_after_on_witness :
  "a" <> "" /\
  handler_count (Some "a") (on "a" 1%positive Samples.two_pattern_bus)
    = (if decide (1%positive ∈ default ∅ (_handlers Samples.two_pattern_bus !! "a"))
       then handler_count (Some "a") Samples.two_pattern_bus
       else S (handler_count (Some "a") Samples.two_pattern_bus)) /\
  handler_count None (on "a" 1%positive Samples.two_pattern_bus)
    = (if decide (1%positive ∈ default ∅ (_handlers Samples.two_pattern_bus !! "a"))
       then handler_count None Samples.two_pattern_bus
       else S (handler_count None Samples.two_pattern_bus)).
Proof.
  split; [done|].
  exact (handler_count_after_on "a" 1%positive Samples.two_pattern_bus ltac:(done)).
Defined.

(** The counts of the two-pattern bus, before and after a handler new to
    the pattern [a] is registered under it. *)
Example handler_count_runs :
  handler_count (Some "a") Samples.two_pattern_bus = 1%nat /\
  handler_count None Samples.two_pattern_bus = 2%nat /\
  handler_count (Some "a") (on "a" 2%positive Samples.two_pattern_bus) = 2%nat /\
  handler_count None (on "a" 2%positive Samples.two_pattern_bus) = 3%nat.
Proof. vm_compute. done. Qed.

(** *** Middleware and emission *)

Section Emission.

Context {W : Type}.
Variable call : EventHandler -> Event -> W -> W * option string.

Lemma apply_middleware_app (c1 c2 : list (Middleware (W:=W))) (e : Event) (w : W) :
  apply_middleware (c1 ++ c2) e w =
    match apply_middleware c1 e w with
    | (w', Py.Return e') => apply_middleware c2 e' w'
    | (w', Py.Raise x) => (w', Py.Raise x)
    end.
Proof.
  revert e w. induction c1 as [|m c1 IH]; intros e w; simpl; [done|].
  destruct (m e w) as [w' [e'|x]]; [apply IH|done].
Qed.

(** X5. A middleware added with [use] runs after the ones already there, on the
    event they return and in the world they leave, and does not run when
    one of them raises. *)
Theorem use_appends_to_chain (middleware : Middleware (W:=W)) (bus : EventBus) (e : Event) (w : W) :
  apply_middleware (_middleware (use middleware bus)) e w =
    match apply_middleware (_middleware bus) e w with
    | (w', Py.Return e') => middleware e' w'
    | (w', Py.Raise x) => (w', Py.Raise x)
    end.
Proof.
  unfold use. simpl. rewrite apply_middleware_app.
  destruct (apply_middleware (_middleware bus) e w) as [w' [e'|x]]; [|done].
  simpl. by destruct (middleware e' w') as [w'' [e''|x]].
Qed.

(** X6. When a middleware of the chain raises after the ones before it have
    returned, [emit] raises that exception: the middleware after it do not
    run, no handler is called and nothing is printed, whatever is
    registered; the event is in the history all the same. *)
Theorem middleware_failure_aborts_emit (event : Event) (bus : EventBus) (rt : Runtime) (before after : list (Middleware (W:=W))) (failing : Middleware (W:=W)) (w1 w2 : W) (e1 : Event) (x : string) :
  _middleware bus = before ++ failing :: after ->
  apply_middleware before event (world rt) = (w1, Py.Return e1) ->
  failing e1 w1 = (w2, Py.Raise x) ->
  (emit call event bus rt).2 = Py.Raise x /\
  world (emit call event bus rt).1.2 = w2 /\
  calls_of_emit call event bus rt = [] /\
  stdout (emit call event bus rt).1.2 = stdout rt /\
  (emit call event bus rt).1.1 = record_history event bus.
Proof.
  intros Hchain Hbefore Hfail. unfold calls_of_emit, emit. simpl.
  rewrite Hchain, apply_middleware_app, Hbefore. simpl. rewrite Hfail. simpl.
  by rewrite drop_all.
Qed.

(** X7. When no registered pattern that matches the emitted type has a handler,
    an emission whose middleware chain returns calls nothing, prints
    nothing and returns; the event is in the history and the world is as
    the middleware left it. *)
Theorem emit_without_handlers (event : Event) (bus : EventBus) (rt : Runtime) (w : W) (processed_event : Event) :
  (forall p hs,
     _handlers bus !! p = Some hs -> _matches_pattern (type event) p = true -> hs = ∅) ->
  apply_middleware (_middleware bus) event (world rt) = (w, Py.Return processed_event) ->
  emit call event bus rt =
    (record_history event bus,
     {| world := w; stdout := stdout rt; invoked := invoked rt |},
     Py.Return tt).
Proof.
  intros Hnone Hmw.
  assert (Hempty : matching_handlers bus (type event) = ∅).
  { apply set_eq. intros h. rewrite EventsSpec.matching_handlers_spec. split.
    - intros (p & hs & Hp & Hm & Hin). rewrite (Hnone p hs Hp Hm) in Hin. done.
    - intros Hin. by apply not_elem_of_empty in Hin. }
  unfold emit. simpl. rewrite Hmw.
  change (matching_handlers (record_history event bus) (type event))
    with (matching_handlers bus (type event)).
  by destruct (decide (matching_handlers bus (type event) = ∅)).
Qed.

End Emission.

Lemma middleware_failure_aborts_emit_witness :
  _middleware (use Samples.retype_to_b (use Samples.failing_middleware Samples.two_pattern_bus))
    = [] ++ Samples.failing_middleware :: [Samples.retype_to_b] /\
  apply_middleware [] (Samples.event_of_type "a") (world (Samples.fresh_runtime tt))
    = (tt, Py.Return (Samples.event_of_type "a")) /\
  Samples.failing_middleware (Samples.event_of_type "a") tt = (tt, Py.Raise "boom") /\
  (emit Samples.quiet_call (Samples.event_of_type "a")
     (use Samples.retype_to_b (use Samples.failing_middleware Samples.two_pattern_bus))
     (Samples.fresh_runtime tt)).2 = Py.Raise "boom" /\
  calls_of_emit Samples.quiet_call (Samples.event_of_type "a")
    (use Samples.retype_to_b (use Samples.failing_middleware Samples.two_pattern_bus))
    (Samples.fresh_runtime tt) = [].
Proof.
  split; [reflexivity|]. split; [reflexivity|]. split; [reflexivity|].
  pose proof (middleware_failure_aborts_emit Samples.quiet_call (Samples.event_of_type "a")
                (use Samples.retype_to_b (use Samples.failing_middleware Samples.two_pattern_bus))
                (Samples.fresh_runtime tt) [] [Samples.retype_to_b] Samples.failing_middleware
                tt tt (Samples.event_of_type "a") "boom" eq_refl eq_refl eq_refl)
    as (Hraise & _ & Hcalls & _).
  exact (conj Hraise Hcalls).
Defined.

Lemma emit_without_handlers_witness :
  (forall p hs,
     _handlers Samples.two_pattern_bus !! p = Some hs ->
     _matches_pattern (type (Samples.event_of_type "b.c")) p = true -> hs = ∅) /\
  apply_middleware (_middleware Samples.two_pattern_bus) (Samples.event_of_type "b.c")
    (world (Samples.fresh_runtime tt)) = (tt, Py.Return (Samples.event_of_type "b.c")) /\
  emit Samples.quiet_call (Samples.event_of_type "b.c") Samples.two_pattern_bus
    (Samples.fresh_runtime tt) =
    (record_history (Samples.event_of_type "b.c") Samples.two_pattern_bus,
     {| world := tt; stdout := []; invoked := [] |},
     Py.Return tt).
Proof.
  assert (Hnone : forall p hs,
            _handlers Samples.two_pattern_bus !! p = Some hs ->
            _matches_pattern (type (Samples.event_of_type "b.c")) p = true -> hs = ∅).
  { intros p hs Hp Hm. unfold Samples.two_pattern_bus, on in Hp. simpl in Hp.
    apply lookup_insert_Some in Hp as [[<- _] | [_ Hp]]; [discriminate Hm|].
    apply lookup_insert_Some in Hp as [[<- _] | [_ Hp]]; [discriminate Hm|].
    by rewrite lookup_empty in Hp. }
  split; [exact Hnone|]. split; [reflexivity|].
  exact (emit_without_handlers Samples.quiet_call (Samples.event_of_type "b.c")
           Samples.two_pattern_bus (Samples.fresh_runtime tt) tt
           (Samples.event_of_type "b.c") Hnone eq_refl).
Defined.

(** *** Reading the history *)

Section Reading.

Context {W : Type}.

Lemma slice_from_latest {A : Type} (limit : Z) (l : list A) :
  (0 < limit)%Z -> Py.slice_from (- limit) l = last_n (Z.to_nat limit) l.
Proof.
  intros Hlimit. unfold Py.slice_from, last_n.
  destruct (Z.ltb_spec (- limit) 0) as [_|?]; [|lia]. f_equal. lia.
Qed.

Lemma slice_from_nonpositive {A : Type} (limit : Z) (l : list A) :
  (limit <= 0)%Z -> Py.slice_from (- limit) l = drop (Z.to_nat (- limit)) l.
Proof.
  intros Hlimit. unfold Py.slice_from.
  by destruct (Z.ltb_spec (- limit) 0) as [?|_]; [lia|].
Qed.

(** X9. With a positive limit, [get_history] returns the newest [limit] events of
    the history, oldest first, or with a type given the newest [limit] among
    the events of exactly that type: never more than [limit] events, each
    of them in the history and of the type asked for. The empty string
    as type asks for every event. *)
Theorem get_history_returns_latest (t : string) (limit : Z) (bus : EventBus (W:=W)) :
  (0 < limit)%Z ->
  get_history None limit bus = last_n (Z.to_nat limit) (_history bus) /\
  get_history (Some "") limit bus = get_history None limit bus /\
  (t <> "" ->
   get_history (Some t) limit bus =
     last_n (Z.to_nat limit) (List.filter (fun e => type e =? t) (_history bus))) /\
  (Z.of_nat (length (get_history None limit bus)) <= limit)%Z /\
  (Z.of_nat (length (get_history (Some t) limit bus)) <= limit)%Z /\
  (t <> "" ->
   forall e, e ∈ get_history (Some t) limit bus -> type e = t /\ e ∈ _history bus).
Proof.
  intros Hlimit. unfold get_history.
  assert (Hlen : forall l : list Event,
            (Z.of_nat (length (Py.slice_from (- limit) l)) <= limit)%Z).
  { intros l. rewrite slice_from_latest by done.
    pose proof (EventsSpec.last_n_length (Z.to_nat limit) l). lia. }
  split_and!.
  - by apply slice_from_latest.
  - done.
  - intros Ht. destruct (String.eqb_spec t "") as [?|_]; [done|]. by apply slice_from_latest.
  - apply Hlen.
  - destruct (t =? ""); apply Hlen.
  - intros Ht e. destruct (String.eqb_spec t "") as [?|_]; [done|].
    rewrite slice_from_latest by done. unfold last_n.
    intros Hin%subseteq_drop%list_elem_of_In%filter_In.
    destruct Hin as [Hin Htype]. split.
    + by apply String.eqb_eq.
    + by apply list_elem_of_In.
Qed.

(** X10. A limit of zero or less does not bound the result: with limit 0
    [get_history] returns the whole history (or every event of the type
    asked for), and with limit [-k] it returns all but the [k] oldest. *)
Theorem get_history_nonpositive_limit (t : string) (limit : Z) (bus : EventBus (W:=W)) :
  (limit <= 0)%Z ->
  get_history None limit bus = drop (Z.to_nat (- limit)) (_history bus) /\
  (t <> "" ->
   get_history (Some t) limit bus =
     drop (Z.to_nat (- limit)) (List.filter (fun e => type e =? t) (_history bus))) /\
  (limit = 0%Z -> get_history None limit bus = _history bus).
Proof.
  intros Hlimit. unfold get_history. split_and!.
  - by apply slice_from_nonpositive.
  - intros Ht. destruct (String.eqb_spec t "") as [?|_]; [done|].
    by apply slice_from_nonpositive.
  - intros ->. done.
Qed.

End Reading.

Lemma get_history_returns_latest_witness :
  (0 < 2)%Z /\
  get_history None 2 Samples.three_events_bus
    = last_n (Z.to_nat 2) (_history Samples.three_events_bus) /\
  ("event1" <> "" ->
   get_history (Some "event1") 2 Samples.three_events_bus =
     last_n (Z.to_nat 2)
       (List.filter (fun e => type e =? "event1") (_history Samples.three_events_bus))).
Proof.
  split; [done|].
  pose proof (get_history_returns_latest "event1" 2 Samples.three_events_bus ltac:(done))
    as (Hall & _ & Htyped & _).
  exact (conj Hall Htyped).
Defined.

Lemma get_history_nonpositive_limit_witness :
  (0 <= 0)%Z /\
  get_history None 0 Samples.three_events_bus
    = drop (Z.to_nat (- 0)) (_history Samples.three_events_bus) /\
  (0%Z = 0%Z -> get_history None 0 Samples.three_events_bus = _history Samples.three_events_bus).
Proof.
  split; [done|].
  pose proof (get_history_nonpositive_limit "event1" 0 Samples.three_events_bus ltac:(done))
    as (Hall & _ & Hzero).
  exact (conj Hall Hzero).
Defined.

(** The history of the three-event bus read with limits 2, 0 and -1, and by
    type. *)
Example get_history_runs :
  map type (get_history None 2 Samples.three_events_bus) = ["event2"; "event1"] /\
  map type (get_history None 0 Samples.three_events_bus) = ["event1"; "event2"; "event1"] /\
  map type (get_history None (-1) Samples.three_events_bus) = ["event2"; "event1"] /\
  map type (get_history (Some "event1") 100 Samples.three_events_bus) = ["event1"; "event1"] /\
  map type (get_history (Some "event*") 100 Samples.three_events_bus) = [].
Proof. vm_compute. done. Qed.

End EventsMore.

(** ** Further properties of state.py *)

Module StateMore.
Import State.

(** *** File names *)

Lemma string_app_inv_tail (a b suffix : string) :
  (a ++ suffix)%string = (b ++ suffix)%string -> a = b.
Proof.
  revert b. induction a as [|c a IH]; intros b Heq.
  - apply (f_equal String.length) in Heq.
    rewrite !StateSpec.string_length_app in Heq.
    destruct b; [done|]. simpl in Heq. lia.
  - destruct b as [|c' b].
    + apply (f_equal String.length) in Heq.
      rewrite !StateSpec.string_length_app in Heq. simpl in Heq. lia.
    + simpl in Heq. injection Heq as -> Heq. f_equal. by apply IH.
Qed.

Lemma file_path_inj (k k' : string) :
  FileStateBackend._file_path k = FileStateBackend._file_path k' ->
  FileStateBackend.safe_key k = FileStateBackend.safe_key k'.
Proof. apply string_app_inv_tail. Qed.

(** *** The file backend *)

Lemma set_accepted (state : State.State) (base_dir base_dir' : gmap string file_content) :
  FileStateBackend.set state base_dir = Py.Return (base_dir', true) ->
  base_dir' = <[FileStateBackend._file_path (key state) := FileStateBackend.dumps state]> base_dir.
Proof.
  unfold FileStateBackend.set.
  destruct (FileStateBackend.get (key state) base_dir) as [[existing|]|e]; [| |done].
  - destruct (negb _); [done|]. by intros [= <-].
  - by intros [= <-].
Qed.

(** X11. A record [set] has accepted is the record [get] then returns for its
    key, field by field. *)
Theorem set_then_get (state : State.State) (base_dir base_dir' : gmap string file_content) :
  FileStateBackend.set state base_dir = Py.Return (base_dir', true) ->
  FileStateBackend.get (key state) base_dir' = Py.Return (Some state).
Proof. intros ->%set_accepted. apply StateSpec.get_written. Qed.

Lemma set_then_get_witness :
  FileStateBackend.set Samples.first_write_at_5 ∅
    = Py.Return ({[ "k.json" := FileStateBackend.dumps Samples.first_write_at_5 ]}, true) /\
  FileStateBackend.get (key Samples.first_write_at_5)
    {[ "k.json" := FileStateBackend.dumps Samples.first_write_at_5 ]}
    = Py.Return (Some Samples.first_write_at_5).
Proof.
  split; [reflexivity|].
  exact (set_then_get Samples.first_write_at_5 ∅
           {[ "k.json" := FileStateBackend.dumps Samples.first_write_at_5 ]} eq_refl).
Defined.

(** X12. [set] is not idempotent: the record it has just accepted it rejects
    when given again, since the stored version is then the declared one and
    not one below it; the store stays as the first write left it. *)
Theorem set_rejects_replay (state : State.State) (base_dir base_dir' : gmap string file_content) :
  FileStateBackend.set state base_dir = Py.Return (base_dir', true) ->
  FileStateBackend.set state base_dir' = Py.Return (base_dir', false).
Proof.
  intros ->%set_accepted. unfold FileStateBackend.set.
  rewrite StateSpec.get_written.
  destruct (Z.eqb_spec (version state) (version state - 1)); [lia|done].
Qed.

Lemma set_rejects_replay_witness :
  FileStateBackend.set Samples.first_write_at_5 ∅
    = Py.Return ({[ "k.json" := FileStateBackend.dumps Samples.first_write_at_5 ]}, true) /\
  FileStateBackend.set Samples.first_write_at_5
    {[ "k.json" := FileStateBackend.dumps Samples.first_write_at_5 ]}
    = Py.Return ({[ "k.json" := FileStateBackend.dumps Samples.first_write_at_5 ]}, false).
Proof.
  split; [reflexivity|].
  exact (set_rejects_replay Samples.first_write_at_5 ∅
           {[ "k.json" := FileStateBackend.dumps Samples.first_write_at_5 ]} eq_refl).
Defined.

Lemma set_touches_one_file (state : State.State) (base_dir base_dir' : gmap string file_content) (accepted : bool) (name : string) :
  FileStateBackend.set state base_dir = Py.Return (base_dir', accepted) ->
  name <> FileStateBackend._file_path (key state) ->
  base_dir' !! name = base_dir !! name.
Proof.
  unfold FileStateBackend.set.
  destruct (FileStateBackend.get (key state) base_dir) as [[existing|]|e]; [| |done].
  - destruct (negb _); intros [= <- <-] Hne; [done|]. by rewrite lookup_insert_ne.
  - intros [= <- <-] Hne. by rewrite lookup_insert_ne.
Qed.

(** X13. Writing or deleting under one key leaves what [get] returns for every
    key with another sanitized form as it was, at the backend and through
    the manager. *)
Theorem other_keys_are_untouched (state : State.State) (k' : string) (base_dir : gmap string file_content) :
  FileStateBackend.safe_key k' <> FileStateBackend.safe_key (key state) ->
  (forall base_dir' accepted,
     FileStateBackend.set state base_dir = Py.Return (base_dir', accepted) ->
     FileStateBackend.get k' base_dir' = FileStateBackend.get k' base_dir) /\
  FileStateBackend.get k' (FileStateBackend.delete (key state) base_dir).1
    = FileStateBackend.get k' base_dir /\
  (forall m base_dir',
     StateManager.set (key state) (value state) m base_dir = Py.Return base_dir' ->
     StateManager.get_state_obj k' base_dir' = StateManager.get_state_obj k' base_dir).
Proof.
  intros Hne.
  assert (Hpath : FileStateBackend._file_path k' <> FileStateBackend._file_path (key state)).
  { intros Heq. apply Hne. by apply file_path_inj. }
  split_and!.
  - intros base_dir' accepted Hset. unfold FileStateBackend.get.
    by rewrite (set_touches_one_file _ _ _ _ _ Hset Hpath).
  - unfold FileStateBackend.delete.
    destruct (base_dir !! FileStateBackend._file_path (key state)); [|done]. simpl.
    unfold FileStateBackend.get. by rewrite lookup_delete_ne.
  - intros m base_dir'. unfold StateManager.set, StateManager.get_state_obj. simpl.
    destruct (FileStateBackend.get (key state) base_dir) as [found|e]; [|done].
    match goal with |- context [FileStateBackend.set ?written base_dir] =>
      destruct (FileStateBackend.set written base_dir) as [[after accepted]|e] eqn:Hset
    end; [|done].
    simpl. intros [= <-]. unfold FileStateBackend.get.
    by rewrite (set_touches_one_file _ _ _ _ _ Hset Hpath).
Qed.

Lemma other_keys_are_untouched_witness :
  FileStateBackend.safe_key "other" <> FileStateBackend.safe_key (key Samples.first_write_at_5) /\
  FileStateBackend.set Samples.first_write_at_5 Samples.torn_dir
    = Py.Return ({[ "k.json" := FileStateBackend.dumps Samples.first_write_at_5 ]}, true) /\
  FileStateBackend.get "other" {[ "k.json" := FileStateBackend.dumps Samples.first_write_at_5 ]}
    = FileStateBackend.get "other" Samples.torn_dir /\
  FileStateBackend.get "other"
    (FileStateBackend.delete (key Samples.first_write_at_5) Samples.torn_dir).1
    = FileStateBackend.get "other" Samples.torn_dir.
Proof.
  assert (Hne : FileStateBackend.safe_key "other"
                <> FileStateBackend.safe_key (key Samples.first_write_at_5)) by done.
  split; [exact Hne|]. split; [reflexivity|].
  pose proof (other_keys_are_untouched Samples.first_write_at_5 "other" Samples.torn_dir Hne)
    as (Hset & Hdelete & _).
  exact (conj (Hset _ true eq_refl) Hdelete).
Defined.

(** X14. Two keys with the same sanitized form name one record: what is written
    under one is what is read under the other, and the record read carries
    the key it was written under, not the key asked for. *)
Theorem keys_alias_by_sanitized_form (k1 k2 : string) (v : Py.json) (m : option (list (string * Py.json))) (base_dir : gmap string file_content) :
  FileStateBackend.safe_key k1 = FileStateBackend.safe_key k2 ->
  StateManager.get_state_obj k2 base_dir = StateManager.get_state_obj k1 base_dir /\
  forall base_dir',
    StateManager.set k1 v m base_dir = Py.Return base_dir' ->
    (forall default_value, StateManager.get k2 default_value base_dir' = Py.Return v) /\
    (exists state,
       StateManager.get_state_obj k2 base_dir' = Py.Return (Some state) /\
       key state = k1).
Proof.
  intros Hsafe.
  assert (Hpath : FileStateBackend._file_path k2 = FileStateBackend._file_path k1).
  { unfold FileStateBackend._file_path. by rewrite Hsafe. }
  assert (Hget : forall d, FileStateBackend.get k2 d = FileStateBackend.get k1 d).
  { intros d. unfold FileStateBackend.get. by rewrite Hpath. }
  split.
  - unfold StateManager.get_state_obj. simpl. apply Hget.
  - intros base_dir' Hset.
    destruct (FileStateBackend.get k1 base_dir) as [found|e] eqn:Hfound.
    + destruct (StateSpec.manager_set_writes k1 v m base_dir found Hfound)
        as (state & Hk & Hv & _ & _ & Hwritten).
      rewrite Hwritten in Hset. injection Hset as <-.
      unfold StateManager.get, StateManager.get_state_obj. simpl.
      rewrite Hget, StateSpec.get_written. split; [by rewrite Hv|by exists state].
    + unfold StateManager.set in Hset. simpl in Hset. by rewrite Hfound in Hset.
Qed.

Lemma keys_alias_by_sanitized_form_witness :
  FileStateBackend.safe_key "a/b" = FileStateBackend.safe_key "a_b" /\
  StateManager.set "a/b" (Py.JInt 1) None (∅ : gmap string file_content)
    = Py.Return
        {[ "a_b.json" := FileStateBackend.dumps
             {| key := "a/b"; value := Py.JInt 1; version := 1; metadata := [] |} ]} /\
  (forall default_value,
     StateManager.get "a_b" default_value
       {[ "a_b.json" := FileStateBackend.dumps
            {| key := "a/b"; value := Py.JInt 1; version := 1; metadata := [] |} ]}
     = Py.Return (Py.JInt 1)) /\
  (exists state,
     StateManager.get_state_obj "a_b"
       {[ "a_b.json" := FileStateBackend.dumps
            {| key := "a/b"; value := Py.JInt 1; version := 1; metadata := [] |} ]}
     = Py.Return (Some state) /\
     key state = "a/b").
Proof.
  split; [reflexivity|]. split; [reflexivity|].
  exact (proj2 (keys_alias_by_sanitized_form "a/b" "a_b" (Py.JInt 1) None ∅ eq_refl) _ eq_refl).
Defined.

(** X15. [delete] returns [True] exactly when the key's file exists, whatever it
    holds; afterwards [get] finds nothing for the key and a second [delete]
    returns [False]; deleting a key without a file changes nothing. *)
Theorem delete_removes_the_file (k : string) (base_dir : gmap string file_content) :
  ((FileStateBackend.delete k base_dir).2 = true
   <-> is_Some (base_dir !! FileStateBackend._file_path k)) /\
  FileStateBackend.get k (FileStateBackend.delete k base_dir).1 = Py.Return None /\
  StateManager.exists_ k (StateManager.delete k base_dir).1 = Py.Return false /\
  (FileStateBackend.delete k (FileStateBackend.delete k base_dir).1).2 = false /\
  (base_dir !! FileStateBackend._file_path k = None ->
   FileStateBackend.delete k base_dir = (base_dir, false)).
Proof.
  unfold StateManager.exists_, StateManager.delete. simpl.
  unfold FileStateBackend.delete, FileStateBackend.get.
  destruct (base_dir !! FileStateBackend._file_path k) as [content|] eqn:Hfile; simpl.
  - rewrite !lookup_delete_eq.
    split_and!; first [done | by eexists | split; [by eexists|done]].
  - rewrite !Hfile.
    split_and!; first [done | by intros [? ?] | split; [done|by intros [? ?]]].
Qed.

Lemma clear_fold (names : list string) (base_dir : gmap string file_content) (count : nat) :
  (foldl (fun '(dir, count) file_path => (base.delete file_path dir, S count))
     (base_dir, count) names).2 = (count + length names)%nat /\
  forall name,
    (foldl (fun '(dir, count) file_path => (base.delete file_path dir, S count))
       (base_dir, count) names).1 !! name
    = if decide (name ∈ names) then None else base_dir !! name.
Proof.
  revert base_dir count. induction names as [|n names IH]; intros base_dir count; simpl.
  - split; [lia|]. intros name. destruct (decide (name ∈ [])) as [Hin|_]; [|done].
    by apply elem_of_nil in Hin.
  - destruct (IH (base.delete n base_dir) (S count)) as [Hcount Hlookup].
    split; [rewrite Hcount; lia|]. intros name. rewrite Hlookup.
    destruct (decide (name ∈ names)) as [Hin|Hnot].
    + rewrite decide_True; [done|by right].
    + destruct (decide (name = n)) as [->|Hne].
      * rewrite decide_True by (by left). apply lookup_delete_eq.
      * rewrite decide_False.
        -- by apply lookup_delete_ne.
        -- intros [?|?]%elem_of_cons; done.
Qed.

(** X16. [clear] deletes every file whose name ends in [.json] and no other, and
    returns how many there were; afterwards nothing is listed and [get]
    finds nothing for any key. *)
Theorem clear_removes_the_state_files (base_dir : gmap string file_content) :
  (FileStateBackend.clear base_dir).2 = length (FileStateBackend.glob_json base_dir) /\
  (forall name,
     (FileStateBackend.clear base_dir).1 !! name
     = if Py.endswith name ".json" then None else base_dir !! name) /\
  (forall prefix, StateManager.list_ prefix (StateManager.clear base_dir).1 = []) /\
  (forall k, FileStateBackend.get k (FileStateBackend.clear base_dir).1 = Py.Return None).
Proof.
  unfold StateManager.list_, StateManager.clear. simpl.
  unfold FileStateBackend.clear.
  destruct (clear_fold (FileStateBackend.glob_json base_dir) base_dir 0) as [Hcount Hlookup].
  assert (Hfiles : forall name,
            (foldl (fun '(dir, count) file_path => (base.delete file_path dir, S count))
               (base_dir, 0%nat) (FileStateBackend.glob_json base_dir)).1 !! name
            = if Py.endswith name ".json" then None else base_dir !! name).
  { intros name. rewrite Hlookup.
    destruct (decide (name ∈ FileStateBackend.glob_json base_dir)) as [Hin|Hnot].
    - apply StateSpec.elem_of_glob_json in Hin as [_ ->]. done.
    - destruct (Py.endswith name ".json") eqn:Hend; [|done].
      destruct (base_dir !! name) as [content|] eqn:Hfile; [|done].
      exfalso. apply Hnot, StateSpec.elem_of_glob_json. split; [by eexists|done]. }
  split_and!.
  - exact Hcount.
  - exact Hfiles.
  - intros prefix. unfold FileStateBackend.list_keys.
    match goal with |- context [FileStateBackend.glob_json ?d] =>
      assert (Hnone : FileStateBackend.glob_json d = [])
    end.
    { apply elem_of_nil_inv. intros name [[content Hfile] Hend]%StateSpec.elem_of_glob_json.
      rewrite Hfiles, Hend in Hfile. done. }
    by rewrite Hnone.
  - intros k. unfold FileStateBackend.get. rewrite Hfiles.
    unfold FileStateBackend._file_path. by rewrite StateSpec.endswith_app.
Qed.

(** The clearing of a directory with one state file and one other file. *)
Example clear_run :
  FileStateBackend.clear Samples.mixed_dir = ({[ "notes.txt" := Undecodable ]}, 1%nat).
Proof. vm_compute. reflexivity. Qed.

(** X17. A non-empty key whose file exists is listed, whatever the file
    holds. So a key is listed although [exists] answers [False] and
    [get_state_obj] returns nothing for it when its file is text that is
    not JSON or a JSON object without [key] or [value], and although
    [exists] raises when its file is not text or holds JSON that is not an
    object. *)
Theorem unreadable_key_is_listed (k : string) (content : file_content) (base_dir : gmap string file_content) :
  k <> "" ->
  base_dir !! FileStateBackend._file_path k = Some content ->
  FileStateBackend.safe_key k ∈ StateManager.list_ "" base_dir /\
  (FileStateBackend.unreadable content ->
   StateManager.exists_ k base_dir = Py.Return false /\
   StateManager.get_state_obj k base_dir = Py.Return None) /\
  (content = NotText ->
   StateManager.exists_ k base_dir = Py.Raise "UnicodeDecodeError") /\
  (content = NotObject ->
   StateManager.exists_ k base_dir = Py.Raise "TypeError").
Proof.
  intros Hk Hfile. split.
  - unfold StateManager.list_. simpl. unfold FileStateBackend.list_keys.
    apply list_elem_of_In, filter_In. split.
    + apply list_elem_of_In.
      change (map Py.stem ?l) with (Py.stem <$> l). apply list_elem_of_fmap.
      exists (FileStateBackend._file_path k). split.
      * by rewrite StateSpec.stem_file_path.
      * apply StateSpec.elem_of_glob_json. split; [by eexists|].
        apply StateSpec.endswith_app.
    + by destruct (FileStateBackend.safe_key k).
  - unfold StateManager.exists_, StateManager.get_state_obj. simpl.
    unfold FileStateBackend.get. rewrite Hfile. split_and!.
    + intros Hbad. destruct content as [| | |data]; try done.
      destruct Hbad as [-> | Hv]; [done|]. rewrite Hv. by destruct (doc_key data).
    + by intros ->.
    + by intros ->.
Qed.

Lemma unreadable_key_is_listed_witness :
  "k" <> "" /\
  Samples.binary_dir !! FileStateBackend._file_path "k" = Some NotText /\
  FileStateBackend.safe_key "k" ∈ StateManager.list_ "" Samples.binary_dir /\
  StateManager.exists_ "k" Samples.binary_dir = Py.Raise "UnicodeDecodeError".
Proof.
  split; [done|]. split; [reflexivity|].
  pose proof (unreadable_key_is_listed "k" NotText Samples.binary_dir ltac:(done) eq_refl)
    as (Hlisted & _ & Hraise & _).
  exact (conj Hlisted (Hraise eq_refl)).
Defined.

(** The listing and the existence test on a directory whose one file is cut
    off in the middle. *)
Example torn_listing_run :
  StateManager.list_ "" Samples.torn_dir = ["k"] /\
  StateManager.exists_ "k" Samples.torn_dir = Py.Return false.
Proof. vm_compute. done. Qed.

(** *** The manager *)

Lemma manager_set_read_back (k : string) (v : Py.json) (m : option (list (string * Py.json))) (base_dir : gmap string file_content) (found : option State.State) :
  FileStateBackend.get k base_dir = Py.Return found ->
  exists after,
    StateManager.set k v m base_dir = Py.Return after /\
    FileStateBackend.get k after
    = Py.Return
        (Some {| key := k; value := v;
                 version :=
                   match found with
                   | Some existing => version existing + 1
                   | None => 1
                   end;
                 metadata := default [] m |}).
Proof.
  intros Hget.
  destruct (StateSpec.manager_set_writes k v m base_dir found Hget)
    as (state & Hk & Hv & Hm & Hver & Hset).
  eexists. split; [exact Hset|].
  rewrite StateSpec.get_written. do 2 f_equal. destruct state; simpl in *. by subst.
Qed.


(** The versions and values of [set] called twice on a new key. *)
Example manager_set_twice_run :
  (match StateManager.set "k" (Py.JStr "v1") None (∅ : gmap string file_content) with
   | Py.Return after => StateManager.set "k" (Py.JStr "v2") None after
   | Py.Raise e => Py.Raise e
   end)
  = Py.Return
      {[ "k.json" := FileStateBackend.dumps
           {| key := "k"; value := Py.JStr "v2"; version := 2; metadata := [] |} ]}.
Proof. vm_compute. reflexivity. Qed.


(** The updates without an expected version of a new key, of a stored
    record, and of a key whose file holds a JSON list. *)
Example update_without_version_run :
  StateManager.update "k" (Py.JInt 2) None (∅ : gmap string file_content)
    = Py.Return
        ({[ "k.json" := FileStateBackend.dumps
              {| key := "k"; value := Py.JInt 2; version := 1; metadata := [] |} ]}, true) /\
  StateManager.update "k" (Py.JInt 2) None Samples.tagged_dir
    = Py.Return
        ({[ "k.json" := FileStateBackend.dumps
              {| key := "k"; value := Py.JInt 2; version := 4;
                 metadata := [("source", Py.JStr "webhook")] |} ]}, true) /\
  StateManager.update "k" (Py.JInt 2) None Samples.list_dir = Py.Raise "TypeError".
Proof. vm_compute. done. Qed.

(** X20. Of two writers that read the same version and both call [update] with
    it, the second is rejected: after the first has succeeded, an [update]
    expecting the same version returns [False] and leaves the first
    writer's value in the store. *)
Theorem second_writer_is_rejected (k : string) (v1 v2 : Py.json) (N : Z) (base_dir base_dir1 : gmap string file_content) :
  StateManager.update k v1 (Some N) base_dir = Py.Return (base_dir1, true) ->
  StateManager.update k v2 (Some N) base_dir1 = Py.Return (base_dir1, false) /\
  (forall default_value, StateManager.get k default_value base_dir1 = Py.Return v1) /\
  (exists stored,
     StateManager.get_state_obj k base_dir1 = Py.Return (Some stored) /\
     version stored = (N + 1)%Z).
Proof.
  unfold StateManager.update, StateManager.get, StateManager.get_state_obj. simpl.
  destruct (FileStateBackend.get k base_dir) as [[existing|]|e] eqn:Hget; simpl; [| done | done].
  destruct (Z.eqb_spec (version existing) N) as [<-|_]; simpl; [|done].
  unfold FileStateBackend.set. simpl. rewrite Hget, StateSpec.version_check_passes. simpl.
  intros [= <-]. rewrite !StateSpec.get_written. simpl.
  destruct (Z.eqb_spec (version existing + 1) (version existing)); [lia|].
  simpl. split; [done|]. split; [done|]. by eexists.
Qed.

Lemma second_writer_is_rejected_witness :
  StateManager.update "k" (Py.JInt 2) (Some 3%Z) Samples.tagged_dir
    = Py.Return
        ({[ "k.json" := FileStateBackend.dumps
              {| key := "k"; value := Py.JInt 2; version := 4;
                 metadata := [("source", Py.JStr "webhook")] |} ]}, true) /\
  StateManager.update "k" (Py.JInt 9) (Some 3%Z)
    {[ "k.json" := FileStateBackend.dumps
         {| key := "k"; value := Py.JInt 2; version := 4;
            metadata := [("source", Py.JStr "webhook")] |} ]}
    = Py.Return
        ({[ "k.json" := FileStateBackend.dumps
              {| key := "k"; value := Py.JInt 2; version := 4;
                 metadata := [("source", Py.JStr "webhook")] |} ]}, false).
Proof.
  split; [reflexivity|].
  exact (proj1 (second_writer_is_rejected "k" (Py.JInt 2) (Py.JInt 9) 3 Samples.tagged_dir
                  {[ "k.json" := FileStateBackend.dumps
                       {| key := "k"; value := Py.JInt 2; version := 4;
                          metadata := [("source", Py.JStr "webhook")] |} ]} eq_refl)).
Defined.

(** X21. [increment] on a key whose value reads as the integer [n] (0 for a key
    without a readable record) returns [n + amount] and stores it at the
    next version, with empty metadata whatever metadata was stored; a
    second [increment] continues from the stored sum. *)
Theorem increment_adds_and_stores (k : string) (n amount amount' : Z) (base_dir : gmap string file_content) :
  StateManager.get k (Py.JInt 0) base_dir = Py.Return (Py.JInt n) ->
  exists after,
    StateManager.increment k amount base_dir = Py.Return (after, Py.JInt (n + amount)) /\
    StateManager.get_state_obj k after
      = Py.Return
          (Some {| key := k; value := Py.JInt (n + amount);
                   version :=
                     match StateManager.get_state_obj k base_dir with
                     | Py.Return (Some existing) => version existing + 1
                     | _ => 1
                     end;
                   metadata := [] |}) /\
    exists after',
      StateManager.increment k amount' after
        = Py.Return (after', Py.JInt (n + amount + amount')).
Proof.
  intros Hcurrent.
  assert (Hget : exists found, FileStateBackend.get k base_dir = Py.Return found).
  { revert Hcurrent. unfold StateManager.get. simpl.
    destruct (FileStateBackend.get k base_dir) as [found|e]; [by eexists|done]. }
  destruct Hget as [found Hget].
  destruct (manager_set_read_back k (Py.JInt (n + amount)) None base_dir found Hget)
    as (after & Hset & Hread).
  exists after. split; [|split].
  - unfold StateManager.increment. by rewrite Hcurrent, Hset.
  - unfold StateManager.get_state_obj. simpl. rewrite Hread, Hget. by destruct found.
  - destruct (manager_set_read_back k (Py.JInt (n + amount + amount')) None after _ Hread)
      as (after' & Hset' & _).
    exists after'. unfold StateManager.increment, StateManager.get. simpl.
    rewrite Hread. simpl. by rewrite Hset'.
Qed.

Lemma increment_adds_and_stores_witness :
  StateManager.get "k" (Py.JInt 0) Samples.tagged_dir = Py.Return (Py.JInt 1) /\
  exists after,
    StateManager.increment "k" 5 Samples.tagged_dir = Py.Return (after, Py.JInt (1 + 5)) /\
    StateManager.get_state_obj "k" after
      = Py.Return
          (Some {| key := "k"; value := Py.JInt (1 + 5);
                   version :=
                     match StateManager.get_state_obj "k" Samples.tagged_dir with
                     | Py.Return (Some existing) => version existing + 1
                     | _ => 1
                     end;
                   metadata := [] |}) /\
    exists after',
      StateManager.increment "k" 1 after = Py.Return (after', Py.JInt (1 + 5 + 1)).
Proof.
  split; [reflexivity|].
  exact (increment_adds_and_stores "k" 1 5 1 Samples.tagged_dir eq_refl).
Defined.

(** The three calls of [test_increment] on a new counter, and an increment
    of a stored 1.5. *)
Example increment_run :
  (let d0 : gmap string file_content := ∅ in
   match StateManager.increment "counter" 1 d0 with
   | Py.Return (d1, r1) =>
       match StateManager.increment "counter" 5 d1 with
       | Py.Return (d2, r2) =>
           match StateManager.increment "counter" 1 d2 with
           | Py.Return (_, r3) => Some (r1, r2, r3)
           | _ => None
           end
       | _ => None
       end
   | _ => None
   end) = Some (Py.JInt 1, Py.JInt 6, Py.JInt 7) /\
  (match StateManager.increment "k" 1 Samples.float_dir with
   | Py.Return (_, sum) => Some sum
   | _ => None
   end) = Some (Py.JFloat (S754_finite false 5629499534213120 (-51))).
Proof. vm_compute. done. Qed.

(** X22. [increment] on a key whose stored value is no number (neither an
    [int], nor a [bool], nor a [float]: a string, a list, a dict or null)
    raises [TypeError]. *)
Theorem increment_rejects_other_values (k : string) (amount : Z) (stored : State.State) (base_dir : gmap string file_content) :
  StateManager.get_state_obj k base_dir = Py.Return (Some stored) ->
  (forall n, value stored <> Py.JInt n) ->
  (forall b, value stored <> Py.JBool b) ->
  (forall x, value stored <> Py.JFloat x) ->
  StateManager.increment k amount base_dir = Py.Raise "TypeError".
Proof.
  unfold StateManager.get_state_obj, StateManager.increment, StateManager.get. simpl.
  intros -> Hint Hbool Hfloat.
  destruct (value stored) as [|b|n|x|text|items|members]; try done.
  - by destruct (Hbool b).
  - by destruct (Hint n).
  - by destruct (Hfloat x).
Qed.

Lemma increment_rejects_other_values_witness :
  StateManager.get_state_obj "k" Samples.text_dir
    = Py.Return
        (Some {| key := "k"; value := Py.JStr "seven"; version := 1; metadata := [] |}) /\
  StateManager.increment "k" 1 Samples.text_dir = Py.Raise "TypeError".
Proof.
  split; [reflexivity|].
  exact (increment_rejects_other_values "k" 1
           {| key := "k"; value := Py.JStr "seven"; version := 1; metadata := [] |}
           Samples.text_dir eq_refl ltac:(done) ltac:(done) ltac:(done)).
Defined.

End StateMore.
